(** * immudb vault client: a shallow embedding of [immudb.py] and of the
      overwrite test of [test_immudb.py]

    The client is glue code around three HTTP calls.  The embedding keeps
    what the Python code has:
    - caller-side dicts and lists are mutable objects in a heap, reached
      through references, because the tests mutate a transaction in place
      ([dict.update]) and pass the same object to several calls;
    - every function runs in a state-and-exception monad over a world made
      of that heap, the remote service, the requests sent so far and the
      lines printed;
    - the remote service is a parameter: any function from a request and a
      service state to a response and a new service state;
    - floats are the rationals that binary64 numbers denote, every float
      operation rounding to nearest, ties to even. *)

From Stdlib Require Import ZArith QArith Lia Lqa String Ascii List.
From stdpp Require Import base gmap strings list.

Set Warnings "-register-all".
Local Open Scope string_scope.

(** ** Python integers printed in decimal: [str(n)] *)

Module PyStr.

Definition digit_char (d : Z) : ascii := ascii_of_nat (48 + Z.to_nat d).

(** Most significant digit first; [fuel] bounds the number of digits. *)
Fixpoint digits_fuel (fuel : nat) (n : Z) (acc : string) : string :=
  match fuel with
  | O => acc
  | S f =>
      let acc' := String (digit_char (n mod 10)) acc in
      if (n <? 10)%Z then acc' else digits_fuel f (n / 10) acc'
  end.

Definition str_nonneg (n : Z) : string :=
  digits_fuel (S (Z.to_nat (Z.log2 n))) n EmptyString.

Definition str_int (n : Z) : string :=
  if (n <? 0)%Z then String "-"%char (str_nonneg (- n)) else str_nonneg n.

Definition is_digit (c : ascii) : bool :=
  let n := nat_of_ascii c in (48 <=? n)%nat && (n <=? 57)%nat.

Fixpoint all_digits (s : string) : bool :=
  match s with
  | EmptyString => true
  | String c s' => is_digit c && all_digits s'
  end.

End PyStr.

(** ** binary64 arithmetic on the rationals the floats denote *)

Module B64.

(** Nearest integer to [n / d] for [d > 0], ties to the even one. *)
Definition rnd_even (n d : Z) : Z :=
  let q := (n / d)%Z in
  match (2 * (n mod d) ?= d)%Z with
  | Lt => q
  | Gt => (q + 1)%Z
  | Eq => if Z.even q then q else (q + 1)%Z
  end.

(** [floor (log2 (n / d))] for positive [n] and [d]. *)
Definition flog2 (n d : Z) : Z :=
  let l := (Z.log2 n - Z.log2 d)%Z in
  if (d * 2 ^ Z.max 0 l <=? n * 2 ^ Z.max 0 (- l))%Z then l else (l - 1)%Z.

(** Exponent of the last mantissa bit: 53 significant bits, and the
    fixed exponent of the subnormal range below [2^-1022]. *)
Definition ulp_exp (n d : Z) : Z := Z.max (flog2 n d - 52) (-1074).

Definition round_pos (n d : Z) : Q :=
  let e := ulp_exp n d in
  let m := rnd_even (n * 2 ^ Z.max 0 (- e)) (d * 2 ^ Z.max 0 e) in
  Qred (Qmake (m * 2 ^ Z.max 0 e) (Z.to_pos (2 ^ Z.max 0 (- e)))).

(** Round to nearest binary64, ties to even.  Faithful below the
    overflow threshold [2^1024]; the client never comes near it. *)
Definition round (q : Q) : Q :=
  match Qnum q with
  | Z0 => 0%Q
  | Zpos n => round_pos (Zpos n) (Zpos (Qden q))
  | Zneg n => Qopp (round_pos (Zpos n) (Zpos (Qden q)))
  end.

Definition add (x y : Q) : Q := round (x + y).
Definition sub (x y : Q) : Q := round (x - y).
Definition mul (x y : Q) : Q := round (x * y).

(** [round(x, ndigits)] of CPython for [ndigits >= 0]: the exact value
    of [x] is rounded half-even to [ndigits] decimals (dtoa, mode 3) and
    the decimal is read back as the nearest float (strtod).
    [round_scaled x (10 ^ ndigits)] is the whole number of units of the
    last decimal in between. *)
Definition round_scaled (x : Q) (scale : Z) : Z :=
  rnd_even (scale * Qnum x) (Zpos (Qden x)).

Definition py_round (x : Q) (ndigits : nat) : Q :=
  let scale := (10 ^ Z.of_nat ndigits)%Z in
  round (Qmake (round_scaled x scale) (Z.to_pos scale)).

End B64.

(** ** Values *)

(** Parsed JSON, as [response.json()] builds it and as a request body is
    transmitted.  These objects are fresh, tree-shaped and never mutated by
    the client, so they are carried as immutable values.  An object keeps
    its members in insertion order, as a Python dict does; lookup takes the
    first member with the key. *)
Inductive json : Type :=
  | JNull
  | JBool (b : bool)
  | JInt (z : Z)
  | JFloat (q : Q)
  | JStr (s : string)
  | JArr (xs : list json)
  | JObj (kvs : list (string * json)).

(** Caller-side Python values: scalars, or a reference to a mutable dict or
    list in the heap. *)
Definition loc := positive.

Inductive val : Type :=
  | VNone
  | VBool (b : bool)
  | VInt (z : Z)
  | VFloat (q : Q)
  | VStr (s : string)
  | VRef (l : loc).

Inductive obj : Type :=
  | ODict (kvs : list (string * val))
  | OList (xs : list val).

Inductive exn : Type :=
  | TypeError_not_iterable (ty : string)
  | TypeError_not_serializable
  | TypeError_subscript (ty : string)
  | AttributeError (ty attr : string)
  | KeyError (k : string)
  | ValueError_circular_reference
  | JSONDecodeError
  | InvalidJSONError
  | AssertionError (msg : string).

Inductive outcome (A : Type) : Type :=
  | Ok (a : A)
  | Raise (e : exn).
Arguments Ok {A} a.
Arguments Raise {A} e.

(** Association lists with the behaviour of a dict with string keys. *)
Section Assoc.
Context {A : Type}.

Fixpoint assoc_get (k : string) (kvs : list (string * A)) : option A :=
  match kvs with
  | [] => None
  | (k', v) :: rest => if String.eqb k k' then Some v else assoc_get k rest
  end.

(** [d[k] = v]: replace in place, or append a new member. *)
Fixpoint assoc_set (k : string) (v : A) (kvs : list (string * A))
  : list (string * A) :=
  match kvs with
  | [] => [(k, v)]
  | (k', v') :: rest =>
      if String.eqb k k' then (k, v) :: rest
      else (k', v') :: assoc_set k v rest
  end.

Definition assoc_keys (kvs : list (string * A)) : list string :=
  map fst kvs.
End Assoc.

Module Json.

Definition type_name (j : json) : string :=
  match j with
  | JNull => "NoneType"
  | JBool _ => "bool"
  | JInt _ => "int"
  | JFloat _ => "float"
  | JStr _ => "str"
  | JArr _ => "list"
  | JObj _ => "dict"
  end.

(** [j.get(k)]: only a dict has the method; a missing key gives [None]. *)
Definition get (j : json) (k : string) : outcome json :=
  match j with
  | JObj kvs => Ok (default JNull (assoc_get k kvs))
  | _ => Raise (AttributeError (type_name j) "get")
  end.

(** [j.keys()] *)
Definition keys (j : json) : outcome (list string) :=
  match j with
  | JObj kvs => Ok (assoc_keys kvs)
  | _ => Raise (AttributeError (type_name j) "keys")
  end.

(** A Python [str] is carried as its UTF-8 encoding, and iterating it
    yields its code points, not its bytes.  A byte [10xxxxxx] continues
    the code point that began before it. *)
Definition is_continuation (c : ascii) : bool :=
  match c with
  | Ascii _ _ _ _ _ _ b6 b7 => b7 && negb b6
  end.

(** The continuation bytes at the head of [s], then the code points that
    follow them. *)
Fixpoint code_points (s : string) : string * list string :=
  match s with
  | EmptyString => (EmptyString, [])
  | String c s' =>
      let '(pending, groups) := code_points s' in
      if is_continuation c then (String c pending, groups)
      else (EmptyString, String c pending :: groups)
  end.

(** The one-character strings of [s].  Continuation bytes that no
    leading byte claims cannot occur in the encoding of a [str]; they are
    kept as a group of their own. *)
Definition chars (s : string) : list json :=
  let '(pending, groups) := code_points s in
  map JStr (match pending with
            | EmptyString => groups
            | _ => pending :: groups
            end).

(** What a [for] loop over [j] visits: the elements of a list, the keys
    of a dict, the characters of a string; anything else is not
    iterable. *)
Definition iter (j : json) : outcome (list json) :=
  match j with
  | JArr xs => Ok xs
  | JObj kvs => Ok (map JStr (assoc_keys kvs))
  | JStr s => Ok (chars s)
  | _ => Raise (TypeError_not_iterable (type_name j))
  end.

(** The number a JSON scalar stands for in a comparison ([bool] is a
    subtype of [int] in Python). *)
Definition number (j : json) : option Q :=
  match j with
  | JBool b => Some (inject_Z (if b then 1 else 0))
  | JInt z => Some (inject_Z z)
  | JFloat q => Some q
  | _ => None
  end.

(** [j == z] for an int [z]. *)
Definition eq_int (j : json) (z : Z) : bool :=
  match number j with
  | Some q => Qeq_bool q (inject_Z z)
  | None => false
  end.

End Json.

(** ** The heap of caller-side objects *)

Module Heap.

Definition type_name (h : gmap loc obj) (v : val) : string :=
  match v with
  | VNone => "NoneType"
  | VBool _ => "bool"
  | VInt _ => "int"
  | VFloat _ => "float"
  | VStr _ => "str"
  | VRef l =>
      match h !! l with
      | Some (OList _) => "list"
      | _ => "dict"
      end
  end.

(** [isinstance(v, list)] *)
Definition is_list (h : gmap loc obj) (v : val) : bool :=
  match v with
  | VRef l => match h !! l with Some (OList _) => true | _ => false end
  | _ => false
  end.

Fixpoint traverse {A B : Type} (f : A -> outcome B) (xs : list A)
  : outcome (list B) :=
  match xs with
  | [] => Ok []
  | x :: rest =>
      match f x with
      | Raise e => Raise e
      | Ok y =>
          match traverse f rest with
          | Raise e => Raise e
          | Ok ys => Ok (y :: ys)
          end
      end
  end.

(** [json.dumps] as [requests] calls it on the [json=] argument, up to
    the text encoding: the tree the body denotes.  [fuel] bounds the depth
    of references followed; a chain of references longer than the heap
    has objects revisits one, which is the circular reference that
    [json.dumps] refuses. *)
Fixpoint dumps_fuel (fuel : nat) (h : gmap loc obj) (v : val)
  : outcome json :=
  match v with
  | VNone => Ok JNull
  | VBool b => Ok (JBool b)
  | VInt z => Ok (JInt z)
  | VFloat q => Ok (JFloat q)
  | VStr s => Ok (JStr s)
  | VRef l =>
      match fuel with
      | O => Raise ValueError_circular_reference
      | S f =>
          match h !! l with
          | None => Raise TypeError_not_serializable
          | Some (OList vs) =>
              match traverse (dumps_fuel f h) vs with
              | Ok js => Ok (JArr js)
              | Raise e => Raise e
              end
          | Some (ODict kvs) =>
              match traverse
                      (fun kv : string * val =>
                         match dumps_fuel f h kv.2 with
                         | Ok j => Ok (kv.1, j)
                         | Raise e => Raise e
                         end) kvs with
              | Ok jkvs => Ok (JObj jkvs)
              | Raise e => Raise e
              end
          end
      end
  end.

Definition dumps (h : gmap loc obj) (v : val) : outcome json :=
  dumps_fuel (size h) h v.

(** The member [k] of the dict [v] refers to, if there is one. *)
Definition field (h : gmap loc obj) (v : val) (k : string) : option val :=
  match v with
  | VRef l =>
      match h !! l with
      | Some (ODict kvs) => assoc_get k kvs
      | _ => None
      end
  | _ => None
  end.

(** [j == v] between a parsed JSON value and a caller-side value:
    numbers by value, strings and [None] by identity of content, lists
    element by element, dicts member by member. *)
Fixpoint py_eq (h : gmap loc obj) (j : json) (v : val) {struct j} : bool :=
  match j with
  | JNull => match v with VNone => true | _ => false end
  | JStr s => match v with VStr s' => String.eqb s s' | _ => false end
  | JBool _ | JInt _ | JFloat _ =>
      match Json.number j, v with
      | Some q, VBool b => Qeq_bool q (inject_Z (if b then 1 else 0))
      | Some q, VInt z => Qeq_bool q (inject_Z z)
      | Some q, VFloat q' => Qeq_bool q q'
      | _, _ => false
      end
  | JArr xs =>
      match v with
      | VRef l =>
          match h !! l with
          | Some (OList vs) =>
              (fix go (xs : list json) (vs : list val) : bool :=
                 match xs, vs with
                 | [], [] => true
                 | x :: xs', v' :: vs' => py_eq h x v' && go xs' vs'
                 | _, _ => false
                 end) xs vs
          | _ => false
          end
      | _ => false
      end
  | JObj jkvs =>
      match v with
      | VRef l =>
          match h !! l with
          | Some (ODict kvs) =>
              (length jkvs =? length kvs)%nat &&
              (fix go (jkvs : list (string * json)) : bool :=
                 match jkvs with
                 | [] => true
                 | (k, x) :: rest =>
                     match assoc_get k kvs with
                     | Some v' => py_eq h x v' && go rest
                     | None => false
                     end
                 end) jkvs
          | _ => false
          end
      | _ => false
      end
  end.

End Heap.

(** ** HTTP messages and the world the client runs in *)

Inductive method : Type := GET | POST | PUT | DELETE.

Record request : Type := Request {
  req_method : method;
  req_url : string;
  req_headers : list (string * string);
  req_json : option json   (* the [json=] body; [None]: no body is sent *)
}.

(** A response as [requests] presents it: [json_body] is what
    [response.json()] decodes from [text], [None] when the body is not
    JSON. *)
Record response : Type := Response {
  status_code : Z;
  text : string;
  json_body : option json
}.

Record world (srv : Type) : Type := World {
  heap : gmap loc obj;
  remote : srv;
  sent : list request;
  stdout : list string
}.
Arguments World {srv} _ _ _ _.
Arguments heap {srv} _.
Arguments remote {srv} _.
Arguments sent {srv} _.
Arguments stdout {srv} _.

#[global] Instance outcome_ret : MRet outcome := fun A a => Ok a.
#[global] Instance outcome_bind : MBind outcome := fun A B f m =>
  match m with
  | Ok a => f a
  | Raise e => Raise e
  end.

(** ** The random source

    One call of [generate_transaction] consumes six results of Faker and of
    [random]; they are the argument of the model.  [valid_draws] is what the
    two libraries guarantee about them: [random_number(digits=26,
    fix_len=True)] is [randint(10**25, 10**26 - 1)], [random()] is a
    multiple of [2**-53] in [[0, 1)], [choice] indexes its sequence. *)
Record draws : Type := Draws {
  d_random_number : Z;
  d_user_name : string;
  d_iban : string;
  d_address : string;
  d_random : Z;          (* [random()] is [d_random / 2**53] *)
  d_choice : nat
}.

Definition valid_draws (d : draws) : Prop :=
  (10 ^ 25 <= d_random_number d <= 10 ^ 26 - 1)%Z /\
  (0 <= d_random d < 2 ^ 53)%Z /\
  (d_choice d < 2)%nat.

Module Random.
Definition random (d : draws) : Q := Qmake (d_random d) (Z.to_pos (2 ^ 53)).

(** [uniform(a, b)] is [a + (b - a) * random()]. *)
Definition uniform (a b : Q) (d : draws) : Q :=
  B64.add a (B64.mul (B64.sub b a) (random d)).

(** [choice(seq)] is [seq[_randbelow(len(seq))]]. *)
Definition choice (seq : list string) (d : draws) : string :=
  nth (d_choice d) seq EmptyString.
End Random.

(** ** The client, [immudb.py] *)

Definition APIKey : string :=
  "default.NBw3gy9WWSmIXhrrkCxnKw.vw1fnvIKEp6hBxd5JPqwYVWKgtUHzpLeTGSCbO9XkmIFNU1t".

Definition document_url : string :=
  "https://vault.immudb.io/ics/api/v1/ledger/default/collection/default/document".
Definition search_url : string :=
  "https://vault.immudb.io/ics/api/v1/ledger/default/collection/default/documents/search".
Definition collection_url : string :=
  "https://vault.immudb.io/ics/api/v1/ledger/default/collection/default".

Definition put_headers : list (string * string) :=
  [("accept", "application/json"); ("X-API-Key", APIKey);
   ("Content-Type", "application/json")].
Definition search_headers : list (string * string) :=
  [("accept", "application/json"); ("X-API-Key", APIKey)].
Definition delete_headers : list (string * string) :=
  [("Accept", "application/json"); ("Authorization", "Bearer " +:+ APIKey);
   ("X-API-Key", APIKey)].

Definition search_page : list (string * val) :=
  [("page", VInt 1); ("perPage", VInt 100)].

Section Client.
Context {srv : Type} (serve : request -> srv -> response * srv).

(** State and exceptions: a computation maps a world to an outcome and
    the world it leaves, also when it raises. *)
Definition M (A : Type) : Type := world srv -> outcome A * world srv.

#[global] Instance M_ret : MRet M := fun A a w => (Ok a, w).
#[global] Instance M_bind : MBind M := fun A B f m w =>
  match m w with
  | (Ok a, w') => f a w'
  | (Raise e, w') => (Raise e, w')
  end.

Definition raise {A : Type} (e : exn) : M A := fun w => (Raise e, w).
Definition lift {A : Type} (o : outcome A) : M A := fun w => (o, w).

(** A dict or list display: a new object at a fresh location. *)
Definition alloc (o : obj) : M val := fun w =>
  let l := fresh (dom (heap w)) in
  (Ok (VRef l), World (<[l := o]> (heap w)) (remote w) (sent w) (stdout w)).

Definition isinstance_list (v : val) : M bool := fun w =>
  (Ok (Heap.is_list (heap w) v), w).

Definition dumps (v : val) : M json := fun w =>
  (Heap.dumps (heap w) v, w).

Definition print (line : string) : M unit := fun w =>
  (Ok tt, World (heap w) (remote w) (sent w) (stdout w ++ [line])%list).

(** One exchange with the remote service that completes: the request
    goes out and a response comes back.  Transport faults, which
    [requests] raises and the client does not catch, are outside the
    model; every statement below is about exchanges that are answered. *)
Definition http (req : request) : M response := fun w =>
  let '(r, s) := serve req (remote w) in
  (Ok r, World (heap w) s (sent w ++ [req])%list (stdout w)).

(** How [requests] encodes its [json=] argument: [json.dumps], whose
    [ValueError] it catches and raises again as its own
    [InvalidJSONError]; a [TypeError] passes through. *)
Definition encode_json (data : val) : M json := fun w =>
  match dumps data w with
  | (Raise ValueError_circular_reference, w') => (Raise InvalidJSONError, w')
  | result => result
  end.

(** [requests.put/post(url, headers=..., json=data)]: [json=None] sends
    no body, anything else is encoded first. *)
Definition requests_json (m : method) (url : string)
    (headers : list (string * string)) (data : val) : M response :=
  body ← match data with
         | VNone => mret None
         | _ => j ← encode_json data; mret (Some j)
         end;
  http (Request m url headers body).

Definition requests_delete (url : string)
    (headers : list (string * string)) : M response :=
  http (Request DELETE url headers None).

(** [response.json()] *)
Definition response_json (r : response) : M json :=
  match json_body r with
  | Some j => mret j
  | None => raise JSONDecodeError
  end.

(** [repr(response)], what [print(response)] writes. *)
Definition response_repr (r : response) : string :=
  "<Response [" +:+ PyStr.str_int (status_code r) +:+ "]>".

Definition generate_transaction (d : draws) : M val :=
  alloc (ODict
    [("account_number", VStr (PyStr.str_int (d_random_number d)));
     ("account_name", VStr (d_user_name d));
     ("iban", VStr (d_iban d));
     ("address", VStr (d_address d));
     ("amount", VFloat (B64.py_round (Random.uniform 1 10000 d) 2));
     ("type", VStr (Random.choice ["sending"; "receiving"] d))]).

Definition put_data_request (data : val) : M bool :=
  is_list ← isinstance_list data;
  data ← (if is_list : bool then alloc (ODict [("document", data)])
          else mret data);
  response ← requests_json PUT document_url put_headers data;
  if (status_code response =? 200)%Z then mret true else mret false.

Definition get_data_request : M json :=
  data ← alloc (ODict search_page);
  response ← requests_json POST search_url search_headers data;
  if (status_code response =? 200)%Z then response_json response
  else response_json response.

Definition delete_collection : M bool :=
  response ← requests_delete collection_url delete_headers;
  _ ← print (response_repr response);
  if (status_code response =? 200)%Z then mret true
  else
    _ ← print ("Error: " +:+ PyStr.str_int (status_code response)
               +:+ " " +:+ text response);
    mret false.

(** The body of the [for document in revision] loop, on the list
    accumulated so far. *)
Definition visit_revision (all_doc : list json) (document : json)
  : outcome (list json) :=
  d ← Json.get document "document";
  ks ← Json.keys d;
  if existsb (String.eqb "document") ks then
    d ← Json.get document "document";
    inner ← Json.get d "document";
    items ← Json.iter inner;
    mret (fold_left (fun acc inside_doc => (acc ++ [inside_doc])%list)
            items all_doc)
  else
    d ← Json.get document "document";
    mret (all_doc ++ [d])%list.

Fixpoint for_each {A B : Type} (body : B -> A -> outcome B)
    (xs : list A) (acc : B) : outcome B :=
  match xs with
  | [] => Ok acc
  | x :: rest =>
      match body acc x with
      | Ok acc' => for_each body rest acc'
      | Raise e => Raise e
      end
  end.

Definition get_all_transaction : M (list json) :=
  current_data ← get_data_request;
  revision ← lift (Json.get current_data "revisions");
  revisions ← lift (Json.iter revision);
  lift (for_each visit_revision revisions []).

(** *** The overwrite test of [test_immudb.py] *)

(** [d.update({...})]: the method exists on dicts only; the members of
    the argument are set in [d] in place and the call returns [None]. *)
Definition dict_update (d : val) (members : list (string * val)) : M val :=
  fun w =>
    match d with
    | VRef l =>
        match heap w !! l with
        | Some (ODict kvs) =>
            let other := fresh (dom (heap w)) in
            let kvs' :=
              fold_left (fun acc kv => assoc_set kv.1 kv.2 acc) members kvs in
            (Ok VNone,
             World (<[l := ODict kvs']> (<[other := ODict members]> (heap w)))
                   (remote w) (sent w) (stdout w))
        | _ => (Raise (AttributeError (Heap.type_name (heap w) d) "update"), w)
        end
    | _ => (Raise (AttributeError (Heap.type_name (heap w) d) "update"), w)
    end.

(** [d[k]] for a string [k] *)
Definition getitem (d : val) (k : string) : M val := fun w =>
  match d with
  | VRef l =>
      match heap w !! l with
      | Some (ODict kvs) =>
          match assoc_get k kvs with
          | Some v => (Ok v, w)
          | None => (Raise (KeyError k), w)
          end
      | _ => (Raise (TypeError_subscript (Heap.type_name (heap w) d)), w)
      end
  | _ => (Raise (TypeError_subscript (Heap.type_name (heap w) d)), w)
  end.

Definition py_eq (j : json) (v : val) : M bool := fun w =>
  (Ok (Heap.py_eq (heap w) j v), w).

(** [any(i.get('account_number') == transaction['account_number'] and
    i.get('amount') == 999 for i in xs)] *)
Fixpoint any_overwritten (transaction : val) (xs : list json) : M bool :=
  match xs with
  | [] => mret false
  | i :: rest =>
      number ← lift (Json.get i "account_number");
      expected ← getitem transaction "account_number";
      same ← py_eq number expected;
      hit ← (if same : bool then
               amount ← lift (Json.get i "amount");
               mret (Json.eq_int amount 999)
             else mret false);
      if hit : bool then mret true else any_overwritten transaction rest
  end.

Definition test_transaction_overwriting (transaction : val) : M unit :=
  _ ← put_data_request transaction;
  updated ← dict_update transaction [("amount", VInt 999)];
  _ ← put_data_request updated;
  all_doc ← get_all_transaction;
  found ← any_overwritten transaction all_doc;
  if found : bool then mret tt
  else raise (AssertionError "Transaction not found in current data.").

(** The test with its [transaction] fixture. *)
Definition run_test_transaction_overwriting (d : draws) : M unit :=
  transaction ← generate_transaction d;
  test_transaction_overwriting transaction.

End Client.

(** ** A store model of the vault

    The remote service is not part of the repository; this is the store
    the specification states for the overwrite scenario.
    Each write appends one revision holding exactly the transmitted body,
    a search returns every revision, oldest first, and a delete empties the
    collection.  A PUT without a body transmits nothing to hold:
    [null_revisions] chooses between a store that rejects it and one that
    appends a revision holding [null]. *)
Module Vault.

Definition state : Type := list json.

Definition revision (document : json) : json :=
  JObj [("document", document)].

Definition search_result (st : state) : json :=
  JObj [("revisions", JArr (map revision st))].

Definition serve (null_revisions : bool) (req : request) (st : state)
  : response * state :=
  match req_method req with
  | PUT =>
      match req_json req with
      | Some body => (Response 200 "{}" (Some (JObj [])), (st ++ [body])%list)
      | None =>
          if null_revisions
          then (Response 200 "{}" (Some (JObj [])), (st ++ [JNull])%list)
          else (Response 400 "empty body"
                  (Some (JObj [("error", JStr "empty body")])), st)
      end
  | POST => (Response 200 "" (Some (search_result st)), st)
  | DELETE => (Response 200 "{}" (Some (JObj [])), [])
  | GET => (Response 405 "" None, st)
  end.

Definition empty : world state := World ∅ [] [] [].

End Vault.

(** ** Sample inputs *)

Module Sample.

(** The largest [random()], [1 - 2**-53]. *)
Definition top_draws : draws :=
  Draws (10 ^ 25) "user" "GB00" "1 Main St" (2 ^ 53 - 1) 0.

(** [random()] is [0.5]: the amount is [5000.5]. *)
Definition mid_draws : draws :=
  Draws (10 ^ 25 + 7) "user" "GB00" "1 Main St" (2 ^ 52) 1.

(** A heap with the empty list at location 1 and a one-member dict at
    location 2. *)
Definition two_objects : gmap loc obj :=
  <[2%positive := ODict [("amount", VInt 5)]]>
    (<[1%positive := OList []]> ∅).

Definition two_objects_world : world Vault.state :=
  World two_objects [] [] [].

(** A service that answers every request with one fixed response. *)
Definition constant (r : response) (req : request) (st : unit)
  : response * unit := (r, tt).

Definition error_payload : response :=
  Response 401 "unauthorized" (Some (JObj [("error", JStr "unauthorized")])).

Definition idle : world unit := World ∅ tt [] [].

(** A search result with a single revision and a batch revision. *)
Definition mixed_revisions : list json :=
  [Vault.revision (JObj [("account_number", JStr "1")]);
   Vault.revision
     (JObj [("document",
             JArr [JObj [("account_number", JStr "2")];
                   JObj [("account_number", JStr "3")]])])].

End Sample.

(** ** What the specification says, to compare the client with *)

Module Spec.

(** The search request: page 1, at most 100 documents. *)
Definition search_request : request :=
  Request POST search_url search_headers
          (Some (JObj [("page", JInt 1); ("perPage", JInt 100)])).

Definition delete_request : request :=
  Request DELETE collection_url delete_headers None.

(** The write request for an input that serialises to [j]: a list is
    wrapped under the single key [document], a single record goes
    unwrapped. *)
Definition batch_envelope (j : json) : json := JObj [("document", j)].

Definition put_body (is_list : bool) (j : json) : json :=
  if is_list then batch_envelope j else j.

Definition put_request (h : gmap loc obj) (data : val) (j : json) : request :=
  Request PUT document_url put_headers
          (match data with
           | VNone => None
           | _ => Some (put_body (Heap.is_list h data) j)
           end).

(** A revision whose [document] mapping has a nested [document] key
    contributes the elements of that sequence, any other revision its
    [document] mapping. *)
Definition leaves (revision : json) : list json :=
  match revision with
  | JObj r =>
      match assoc_get "document" r with
      | Some (JObj d) =>
          match assoc_get "document" d with
          | Some (JArr xs) => xs
          | _ => [JObj d]
          end
      | _ => []
      end
  | _ => []
  end.

Definition flatten (revisions : list json) : list json :=
  concat (map leaves revisions).

(** The shape of a revision the specification describes: a mapping with
    a [document] mapping, whose nested [document], when present, is a
    sequence. *)
Definition revision_shaped (revision : json) : bool :=
  match revision with
  | JObj r =>
      match assoc_get "document" r with
      | Some (JObj d) =>
          match assoc_get "document" d with
          | Some (JArr _) | None => true
          | Some _ => false
          end
      | _ => false
      end
  | _ => false
  end.

(** The overwrite scenario in the specification's words: write the
    transaction, set its [amount] to 999, write it again, and look for it
    in the flattened aggregate. *)
Definition overwrite_scenario {srv : Type}
    (serve : request -> srv -> response * srv) (transaction : val)
  : M (srv := srv) unit :=
  _ ← put_data_request serve transaction;
  _ ← dict_update transaction [("amount", VInt 999)];
  _ ← put_data_request serve transaction;
  all_doc ← get_all_transaction serve;
  found ← any_overwritten transaction all_doc;
  if found : bool then mret tt
  else raise (AssertionError "Transaction not found in current data.").

(** [all2b f xs ys]: the lists have the same length and [f] holds of
    their elements pairwise. *)
Definition all2b {A B : Type} (f : A -> B -> bool)
  : list A -> list B -> bool :=
  fix go (xs : list A) (ys : list B) : bool :=
    match xs, ys with
    | [], [] => true
    | x :: xs', y :: ys' => f x y && go xs' ys'
    | _, _ => false
    end.

(** The JSON tree a caller-side value stands for, read off the heap to
    any depth: [denotes h j v] holds when [j] is [v] with every reference
    replaced by the object it refers to, a list element by element and a
    dict member by member, in order and under the same keys. *)
Fixpoint denotes (h : gmap loc obj) (j : json) (v : val) {struct j} : bool :=
  match j with
  | JNull => match v with VNone => true | _ => false end
  | JBool b => match v with VBool b' => Bool.eqb b b' | _ => false end
  | JInt z => match v with VInt z' => (z =? z')%Z | _ => false end
  | JFloat q =>
      match v with
      | VFloat q' => (Qnum q =? Qnum q')%Z && (Qden q =? Qden q')%positive
      | _ => false
      end
  | JStr s => match v with VStr s' => String.eqb s s' | _ => false end
  | JArr js =>
      match v with
      | VRef l =>
          match h !! l with
          | Some (OList vs) => all2b (denotes h) js vs
          | _ => false
          end
      | _ => false
      end
  | JObj jkvs =>
      match v with
      | VRef l =>
          match h !! l with
          | Some (ODict kvs) =>
              all2b (fun (jkv : string * json) (kv : string * val) =>
                       String.eqb jkv.1 kv.1 && denotes h jkv.2 kv.2)
                    jkvs kvs
          | _ => false
          end
      | _ => false
      end
  end.

(** How deep containers nest in a tree, and how many nodes it has. *)
Fixpoint depth (j : json) : nat :=
  match j with
  | JArr js => S (list_max (map depth js))
  | JObj jkvs => S (list_max (map (fun jkv : string * json => depth jkv.2) jkvs))
  | _ => 0
  end.

Fixpoint nodes (j : json) : nat :=
  match j with
  | JArr js => S (list_sum (map nodes js))
  | JObj jkvs => S (list_sum (map (fun jkv : string * json => nodes jkv.2) jkvs))
  | _ => 1
  end.

End Spec.

(** ** The other tests of [test_immudb.py] *)

Section Tests.
Context {srv : Type} (serve : request -> srv -> response * srv).

(** [assert cond, msg] *)
Definition assert_that (cond : bool) (msg : string) : M (srv := srv) unit :=
  if cond then mret tt else raise (AssertionError msg).


(** [x is not None] on a parsed value *)
Definition is_not_None (j : json) : bool :=
  match j with
  | JNull => false
  | _ => true
  end.

Definition test_get_data_request : M (srv := srv) unit :=
  current_data ← get_data_request serve;
  revisions ← lift (Json.get current_data "revisions");
  assert_that (is_not_None revisions) "Failed to fetch data from API.".

(** [any(i.get('account_number') == transaction['account_number']
    for i in xs)] *)
Fixpoint any_included (transaction : val) (xs : list json)
  : M (srv := srv) bool :=
  match xs with
  | [] => mret false
  | i :: rest =>
      number ← lift (Json.get i "account_number");
      expected ← getitem transaction "account_number";
      same ← py_eq number expected;
      if same : bool then mret true else any_included transaction rest
  end.

Definition test_transaction_included_not_empty_vault (d : draws)
    (transaction : val) : M (srv := srv) unit :=
  other ← generate_transaction d;
  _ ← put_data_request serve other;
  _ ← put_data_request serve transaction;
  all_doc ← get_all_transaction serve;
  found ← any_included transaction all_doc;
  assert_that found "Transaction not found in current data.".

Definition test_transaction_included_empty_vault (transaction : val)
  : M (srv := srv) unit :=
  _ ← delete_collection serve;
  _ ← put_data_request serve transaction;
  all_doc ← get_all_transaction serve;
  found ← any_included transaction all_doc;
  assert_that found "Transaction not found in current data.".

(** Each test with its [transaction] fixture, which pytest evaluates
    before the body. *)
Definition with_transaction (d : draws) (test : val -> M (srv := srv) unit)
  : M (srv := srv) unit :=
  transaction ← generate_transaction d;
  test transaction.

End Tests.

(** The members [generate_transaction] gives a transaction, and the body
    they serialise to. *)
Definition transaction_members (d : draws) : list (string * val) :=
  [("account_number", VStr (PyStr.str_int (d_random_number d)));
   ("account_name", VStr (d_user_name d));
   ("iban", VStr (d_iban d));
   ("address", VStr (d_address d));
   ("amount", VFloat (B64.py_round (Random.uniform 1 10000 d) 2));
   ("type", VStr (Random.choice ["sending"; "receiving"] d))].

Definition transaction_json (d : draws) : json :=
  JObj
    [("account_number", JStr (PyStr.str_int (d_random_number d)));
     ("account_name", JStr (d_user_name d));
     ("iban", JStr (d_iban d));
     ("address", JStr (d_address d));
     ("amount", JFloat (B64.py_round (Random.uniform 1 10000 d) 2));
     ("type", JStr (Random.choice ["sending"; "receiving"] d))].

(** Whether a parsed value is a mapping, the only kind with [.get]. *)
Definition is_mapping (j : json) : bool :=
  match j with
  | JObj _ => true
  | _ => false
  end.

(** ** More sample inputs *)

Module Sample2.

(** A heap where location 1 is a list that is its own first element. *)
Definition circular : gmap loc obj :=
  <[1%positive := OList [VRef 1%positive; VInt 2]]> ∅.

(** [Sample.two_objects] with a batch of two references to its dict at
    location 3. *)
Definition with_batch : gmap loc obj :=
  <[3%positive := OList [VRef 2%positive; VRef 2%positive]]>
    Sample.two_objects.

(** A vault that already holds one single revision and one batch. *)
Definition stocked : world Vault.state :=
  World with_batch
        [JObj [("account_number", JStr "1")];
         JObj [("document", JArr [JObj [("account_number", JStr "2")]])]]
        [] [].

Definition answering (body : json) : request -> unit -> response * unit :=
  Sample.constant (Response 200 EmptyString (Some body)).

End Sample2.

(** * Facts *)

(** ** Running the client *)

Section ClientFacts.
Context {srv : Type} (serve : request -> srv -> response * srv).

Lemma fresh_lookup_None (h : gmap loc obj) : h !! fresh (dom h) = None.
Proof. apply not_elem_of_dom, is_fresh. Qed.

Lemma dumps_search_page (h : gmap loc obj) (l : loc) :
  h !! l = None ->
  Heap.dumps (<[l := ODict search_page]> h) (VRef l)
  = Ok (JObj [("page", JInt 1); ("perPage", JInt 100)]).
Proof.
  intros Hl. unfold Heap.dumps.
  rewrite map_size_insert_None by exact Hl. simpl.
  rewrite lookup_insert_eq. destruct (size h); reflexivity.
Qed.

(** What one call of [get_data_request] does, whatever the service
    answers. *)
Lemma get_data_request_run (w : world srv) :
  get_data_request serve w =
  (match json_body (serve Spec.search_request (remote w)).1 with
   | Some j => Ok j
   | None => Raise JSONDecodeError
   end,
   World (<[fresh (dom (heap w)) := ODict search_page]> (heap w))
         (serve Spec.search_request (remote w)).2
         (sent w ++ [Spec.search_request])%list (stdout w)).
Proof.
  unfold get_data_request, requests_json, encode_json, alloc, dumps, http,
    response_json.
  unfold mbind, M_bind, mret, M_ret, raise. simpl.
  rewrite (dumps_search_page _ _ (fresh_lookup_None (heap w))).
  unfold Spec.search_request. simpl.
  destruct (serve _ (remote w)) as [r srv1]. simpl.
  destruct (status_code r =? 200)%Z; destruct (json_body r); reflexivity.
Qed.

(** *** Serialisation and allocation *)

Lemma traverse_ok_ext {A B : Type} (f g : A -> outcome B) (xs : list A)
    (ys : list B) :
  (forall x y, x ∈ xs -> f x = Ok y -> g x = Ok y) ->
  Heap.traverse f xs = Ok ys -> Heap.traverse g xs = Ok ys.
Proof.
  revert ys. induction xs as [|x xs IH]; intros ys Hfg; simpl; [done|].
  destruct (f x) as [y|] eqn:Hfx; [|done].
  rewrite (Hfg x y (list_elem_of_here _ _) Hfx).
  destruct (Heap.traverse f xs) as [ys'|] eqn:Hxs; [|done].
  intros [= <-].
  rewrite (IH ys'); [done| |done].
  intros x' y' Hin. apply Hfg. by apply list_elem_of_further.
Qed.

(** Serialising a value never looks at a location allocated later. *)
Lemma dumps_fuel_insert (n : nat) (h : gmap loc obj) (l : loc) (o : obj)
    (v : val) (j : json) :
  h !! l = None ->
  Heap.dumps_fuel n h v = Ok j ->
  Heap.dumps_fuel n (<[l := o]> h) v = Ok j.
Proof.
  intros Hl. revert v j.
  induction n as [|n IH]; intros v j; destruct v; simpl; try done.
  destruct (h !! l0) as [[kvs|vs]|] eqn:Hl0; [| |done];
    (rewrite lookup_insert_ne by congruence); rewrite Hl0.
  - destruct (Heap.traverse _ kvs) as [jkvs|] eqn:Hkvs; [|done].
    intros [= <-].
    erewrite traverse_ok_ext; [done| |exact Hkvs].
    intros [k v'] y _. simpl.
    destruct (Heap.dumps_fuel n h v') as [j'|] eqn:Hv'; [|done].
    by rewrite (IH _ _ Hv').
  - destruct (Heap.traverse _ vs) as [js|] eqn:Hvs; [|done].
    intros [= <-].
    erewrite traverse_ok_ext; [done| |exact Hvs].
    intros v' y _. apply IH.
Qed.

(** More fuel does not change a serialisation that succeeded. *)
Lemma dumps_fuel_S (n : nat) (h : gmap loc obj) (v : val) (j : json) :
  Heap.dumps_fuel n h v = Ok j -> Heap.dumps_fuel (S n) h v = Ok j.
Proof.
  revert v j. induction n as [|n IH]; intros v j; destruct v; try done.
  intros H. simpl in H. change (Heap.dumps_fuel (S (S n)) h (VRef l)) with
    (match h !! l with
     | None => Raise TypeError_not_serializable
     | Some (OList vs) =>
         match Heap.traverse (Heap.dumps_fuel (S n) h) vs with
         | Ok js => Ok (JArr js)
         | Raise e => Raise e
         end
     | Some (ODict kvs) =>
         match Heap.traverse
                 (fun kv : string * val =>
                    match Heap.dumps_fuel (S n) h kv.2 with
                    | Ok j => Ok (kv.1, j)
                    | Raise e => Raise e
                    end) kvs with
         | Ok jkvs => Ok (JObj jkvs)
         | Raise e => Raise e
         end
     end).
  destruct (h !! l) as [[kvs|vs]|]; [| |done].
  - destruct (Heap.traverse _ kvs) as [jkvs|] eqn:Hkvs; [|done].
    injection H as <-.
    erewrite traverse_ok_ext; [done| |exact Hkvs].
    intros [k v'] y _. cbv beta. cbn [fst snd].
    destruct (Heap.dumps_fuel n h v') as [j'|] eqn:Hv'; [|done].
    by rewrite (IH _ _ Hv').
  - destruct (Heap.traverse _ vs) as [js|] eqn:Hvs; [|done].
    injection H as <-.
    erewrite traverse_ok_ext; [done| |exact Hvs].
    intros v' y _. apply IH.
Qed.

(** The batch envelope around a serialisable value is serialisable. *)
Lemma dumps_envelope (h : gmap loc obj) (l : loc) (data : val) (j : json) :
  h !! l = None ->
  Heap.dumps h data = Ok j ->
  Heap.dumps (<[l := ODict [("document", data)]]> h) (VRef l)
  = Ok (Spec.batch_envelope j).
Proof.
  intros Hl Hj. unfold Heap.dumps in *.
  rewrite map_size_insert_None by exact Hl. simpl.
  rewrite lookup_insert_eq. simpl.
  by rewrite (dumps_fuel_insert _ _ _ _ _ _ Hl Hj).
Qed.

(** What one call of [put_data_request] does on a serialisable input,
    whatever the service answers. *)
Lemma put_data_request_run (w : world srv) (data : val) (j : json) :
  Heap.dumps (heap w) data = Ok j ->
  put_data_request serve data w =
  (Ok (status_code
         (serve (Spec.put_request (heap w) data j) (remote w)).1 =? 200)%Z,
   World (if Heap.is_list (heap w) data
          then <[fresh (dom (heap w)) := ODict [("document", data)]]> (heap w)
          else heap w)
         (serve (Spec.put_request (heap w) data j) (remote w)).2
         (sent w ++ [Spec.put_request (heap w) data j])%list (stdout w)).
Proof.
  intros Hj.
  unfold put_data_request, isinstance_list, requests_json, encode_json, alloc,
    dumps, http.
  unfold Spec.put_request, Spec.put_body.
  unfold mbind, M_bind, mret, M_ret. cbn beta iota.
  destruct (Heap.is_list (heap w) data) eqn:Hlist.
  - destruct data; try discriminate Hlist. cbn [heap remote sent stdout].
    rewrite (dumps_envelope _ _ _ _ (fresh_lookup_None (heap w)) Hj).
    cbn [heap remote sent stdout].
    destruct (serve _ (remote w)) as [r srv1]. cbn [fst snd].
    by destruct (status_code r =? 200)%Z.
  - destruct data; cbn [heap remote sent stdout]; rewrite ?Hj;
      destruct (serve _ (remote w)) as [r srv1]; cbn [fst snd];
      by destruct (status_code r =? 200)%Z.
Qed.

(** Allocation and sending leave every existing object as it was. *)
Lemma put_data_request_heap (w : world srv) (data : val) :
  heap (put_data_request serve data w).2 =
  if Heap.is_list (heap w) data
  then <[fresh (dom (heap w)) := ODict [("document", data)]]> (heap w)
  else heap w.
Proof.
  unfold put_data_request, isinstance_list, requests_json, encode_json, alloc,
    dumps, http.
  unfold mbind, M_bind, mret, M_ret. cbn beta iota.
  destruct (Heap.is_list (heap w) data) eqn:Hlist.
  - destruct data; try discriminate Hlist. cbn [heap remote sent stdout].
    destruct (Heap.dumps _ _) as [j|[]]; try done.
    cbn [heap remote sent stdout].
    destruct (serve _ (remote w)) as [r srv1]. cbn [fst snd heap].
    by destruct (status_code r =? 200)%Z.
  - destruct data; cbn [heap remote sent stdout];
      try (destruct (Heap.dumps _ _) as [j|[]]; try done);
      destruct (serve _ (remote w)) as [r srv1]; cbn [fst snd];
      by destruct (status_code r =? 200)%Z.
Qed.

(** *** Deleting *)

Lemma delete_collection_run (w : world srv) :
  delete_collection serve w =
  let r := (serve Spec.delete_request (remote w)).1 in
  (Ok (status_code r =? 200)%Z,
   World (heap w) (serve Spec.delete_request (remote w)).2
         (sent w ++ [Spec.delete_request])%list
         (if (status_code r =? 200)%Z
          then stdout w ++ [response_repr r]
          else (stdout w ++ [response_repr r]) ++
               ["Error: " +:+ PyStr.str_int (status_code r)
                +:+ " " +:+ text r])%list).
Proof.
  unfold delete_collection, requests_delete, http, print.
  unfold mbind, M_bind, mret, M_ret, Spec.delete_request. cbn beta iota.
  destruct (serve _ (remote w)) as [r srv1]. cbn [fst snd heap remote sent stdout].
  by destruct (status_code r =? 200)%Z.
Qed.

(** *** Flattening *)

Lemma existsb_keys {A : Type} (k : string) (kvs : list (string * A)) :
  existsb (String.eqb k) (assoc_keys kvs) =
  match assoc_get k kvs with Some _ => true | None => false end.
Proof.
  induction kvs as [|[k' v] kvs IH]; simpl; [done|].
  destruct (String.eqb k k'); [done|]. exact IH.
Qed.

Lemma fold_left_append {A : Type} (items acc : list A) :
  fold_left (fun acc x => (acc ++ [x])%list) items acc = (acc ++ items)%list.
Proof.
  revert acc. induction items as [|x items IH]; intros acc; simpl.
  - by rewrite app_nil_r.
  - by rewrite IH, <- app_assoc.
Qed.

(** On a revision of the specified shape the loop body appends the
    leaves of the revision. *)
Lemma visit_revision_shaped (all_doc : list json) (revision : json) :
  Spec.revision_shaped revision = true ->
  visit_revision all_doc revision
  = Ok (all_doc ++ Spec.leaves revision)%list.
Proof.
  unfold Spec.revision_shaped, Spec.leaves, visit_revision.
  unfold mbind, outcome_bind, mret, outcome_ret.
  destruct revision as [| | | | | |r]; try discriminate.
  cbn [Json.get].
  destruct (assoc_get "document" r) as [[| | | | | |d]|]; try discriminate.
  cbn [default from_option id Json.keys Json.get].
  rewrite existsb_keys.
  destruct (assoc_get "document" d) as [[| | | | |xs|]|]; try discriminate;
    intros _; cbn [default from_option id Json.iter].
  - by rewrite fold_left_append.
  - done.
Qed.

Lemma for_each_shaped (revisions all_doc : list json) :
  forallb Spec.revision_shaped revisions = true ->
  for_each visit_revision revisions all_doc
  = Ok (all_doc ++ Spec.flatten revisions)%list.
Proof.
  revert all_doc.
  induction revisions as [|revision revisions IH]; intros all_doc; simpl.
  - intros _. unfold Spec.flatten. simpl. by rewrite app_nil_r.
  - intros [Hrev Hrest]%andb_prop.
    rewrite (visit_revision_shaped _ _ Hrev), (IH _ Hrest).
    unfold Spec.flatten. simpl. by rewrite app_assoc.
Qed.

(** [get_all_transaction] is the search followed by the pure flattening
    of what the search returned. *)
Lemma get_all_transaction_run (w : world srv) :
  get_all_transaction serve w =
  (match get_data_request serve w with
   | (Ok current_data, _) =>
       revision ← Json.get current_data "revisions";
       revisions ← Json.iter revision;
       for_each visit_revision revisions []
   | (Raise e, _) => Raise e
   end,
   (get_data_request serve w).2).
Proof.
  unfold get_all_transaction, lift. unfold mbind at 1 2 3, M_bind.
  destruct (get_data_request serve w) as [[current_data|e] w']; [|done].
  cbn [snd].
  destruct (Json.get current_data "revisions") as [revision|]; [|done].
  cbn [mbind outcome_bind].
  by destruct (Json.iter revision).
Qed.

End ClientFacts.

(** ** Decimal printing *)

Module PyStrFacts.
Import PyStr.

Lemma digit_char_is_digit (d : Z) :
  (0 <= d < 10)%Z -> is_digit (digit_char d) = true.
Proof.
  intros Hd. unfold is_digit, digit_char.
  rewrite nat_ascii_embedding by lia.
  apply andb_true_intro. split; apply Nat.leb_le; lia.
Qed.

(** A number of exactly [k] decimal digits prints as [k] digits in front
    of the accumulator, given fuel for them. *)
Lemma digits_fuel_spec (k : nat) :
  forall (fuel : nat) (n : Z) (acc : string),
    (S k <= fuel)%nat ->
    (0 <= n)%Z -> (k = 0%nat \/ 10 ^ Z.of_nat k <= n)%Z ->
    (n < 10 * 10 ^ Z.of_nat k)%Z ->
    String.length (digits_fuel fuel n acc) = (S k + String.length acc)%nat /\
    (all_digits acc = true -> all_digits (digits_fuel fuel n acc) = true).
Proof.
  induction k as [|k IH]; intros fuel n acc Hfuel Hn0 Hlo Hhi.
  - change (10 ^ Z.of_nat 0)%Z with 1%Z in Hhi.
    destruct fuel as [|fuel]; [lia|]. cbn [digits_fuel].
    destruct (Z.ltb_spec n 10) as [_|?]; [|lia].
    cbn [String.length all_digits]. split; [done|].
    intros ->. rewrite digit_char_is_digit; [done|].
    apply Z.mod_pos_bound; lia.
  - destruct Hlo as [?|Hlo]; [lia|].
    rewrite Nat2Z.inj_succ, Z.pow_succ_r in Hlo, Hhi by lia.
    assert (0 < 10 ^ Z.of_nat k)%Z as Hpos by (apply Z.pow_pos_nonneg; lia).
    destruct fuel as [|fuel]; [lia|]. cbn [digits_fuel].
    destruct (Z.ltb_spec n 10) as [?|_]; [lia|].
    destruct (IH fuel (n / 10)%Z (String (digit_char (n mod 10)) acc))
      as [Hlen Hdig].
    + lia.
    + apply Z.div_pos; lia.
    + right. apply Z.div_le_lower_bound; lia.
    + apply Z.div_lt_upper_bound; lia.
    + split.
      * rewrite Hlen. cbn [String.length]. lia.
      * intros Hacc. apply Hdig. cbn [all_digits].
        rewrite digit_char_is_digit, Hacc; [done|].
        apply Z.mod_pos_bound; lia.
Qed.

Lemma str_int_digits (k : nat) (n : Z) :
  (10 ^ Z.of_nat k <= n < 10 * 10 ^ Z.of_nat k)%Z ->
  String.length (str_int n) = S k /\ all_digits (str_int n) = true.
Proof.
  intros [Hlo Hhi].
  assert (0 < 10 ^ Z.of_nat k)%Z as Hpos by (apply Z.pow_pos_nonneg; lia).
  unfold str_int. destruct (Z.ltb_spec n 0) as [?|_]; [lia|].
  unfold str_nonneg.
  destruct (digits_fuel_spec k (S (Z.to_nat (Z.log2 n))) n EmptyString)
    as [Hlen Hdig]; try lia.
  - assert (Z.of_nat k <= Z.log2 n)%Z; [|lia].
    apply Z.log2_le_pow2; [lia|].
    transitivity (10 ^ Z.of_nat k)%Z; [|lia].
    apply Z.pow_le_mono_l. lia.
  - split; [rewrite Hlen; cbn [String.length]; lia | by apply Hdig].
Qed.

End PyStrFacts.

(** ** Rounding *)

Module B64Facts.
Import B64.

Lemma rnd_even_le (n d N : Z) :
  (0 < d)%Z -> (n <= N * d)%Z -> (rnd_even n d <= N)%Z.
Proof.
  intros Hd Hn. unfold rnd_even.
  pose proof (Z.div_mod n d ltac:(lia)) as Hdm.
  pose proof (Z.mod_pos_bound n d Hd) as Hr.
  destruct (Z.compare_spec (2 * (n mod d)) d);
    try destruct (Z.even (n / d)); nia.
Qed.

Lemma rnd_even_ge (n d N : Z) :
  (0 < d)%Z -> (N * d <= n)%Z -> (N <= rnd_even n d)%Z.
Proof.
  intros Hd Hn. unfold rnd_even.
  pose proof (Z.div_mod n d ltac:(lia)) as Hdm.
  pose proof (Z.mod_pos_bound n d Hd) as Hr.
  destruct (Z.compare_spec (2 * (n mod d)) d);
    try destruct (Z.even (n / d)); nia.
Qed.

(** A quotient below [2^k] has its leading bit below position [k]. *)
Lemma flog2_lt (n d k : Z) :
  (0 < n)%Z -> (0 < d)%Z -> (0 <= k)%Z -> (n < 2 ^ k * d)%Z ->
  (flog2 n d < k)%Z.
Proof.
  intros Hn Hd Hk Hlt. unfold flog2.
  pose proof (Z.log2_nonneg d) as Hld.
  assert (Z.log2 n < k + Z.log2 d + 1)%Z as Hl.
  { apply Z.log2_lt_pow2; [done|].
    destruct (Z.log2_spec d Hd) as [_ Hd2].
    rewrite Z.pow_add_r, Z.pow_add_r by lia.
    change (Z.succ (Z.log2 d)) with (Z.log2 d + 1)%Z in Hd2.
    rewrite Z.pow_add_r in Hd2 by lia.
    assert (0 < 2 ^ k)%Z by (apply Z.pow_pos_nonneg; lia).
    nia. }
  destruct (Z.leb_spec (d * 2 ^ Z.max 0 (Z.log2 n - Z.log2 d))
                       (n * 2 ^ Z.max 0 (- (Z.log2 n - Z.log2 d)))) as [Hle|_];
    [|lia].
  destruct (Z.eq_dec (Z.log2 n - Z.log2 d)%Z k) as [Heq|]; [|lia].
  rewrite Heq in Hle.
  rewrite (Z.max_r 0 k), (Z.max_l 0 (- k)) in Hle by lia.
  simpl in Hle. lia.
Qed.

(** Rounding to binary64 does not cross an integer below [2^53]:
    such an integer is itself a float. *)
Lemma round_pos_between (n d lo hi : Z) :
  (0 < n)%Z -> (0 < d)%Z -> (hi < 2 ^ 53)%Z ->
  (lo * d <= n <= hi * d)%Z ->
  (inject_Z lo <= round_pos n d <= inject_Z hi)%Q.
Proof.
  intros Hn Hd Hhi [Hlo Hup]. unfold round_pos.
  assert (ulp_exp n d <= 0)%Z as He.
  { unfold ulp_exp.
    assert (flog2 n d < 53)%Z; [|lia].
    apply flog2_lt; [done|done|lia|]. nia. }
  rewrite (Z.max_l 0 (ulp_exp n d)), (Z.max_r 0 (- ulp_exp n d)) by lia.
  set (s := (2 ^ (- ulp_exp n d))%Z).
  assert (0 < s)%Z as Hs by (apply Z.pow_pos_nonneg; lia).
  change (2 ^ 0)%Z with 1%Z.
  rewrite Qred_correct. unfold Qle, inject_Z. cbn [Qnum Qden].
  rewrite Z2Pos.id by exact Hs.
  pose proof (rnd_even_ge (n * s) (d * 1) (lo * s) ltac:(lia) ltac:(nia)).
  pose proof (rnd_even_le (n * s) (d * 1) (hi * s) ltac:(lia) ltac:(nia)).
  lia.
Qed.

Lemma round_between (q : Q) (lo hi : Z) :
  (0 <= lo)%Z -> (hi < 2 ^ 53)%Z ->
  (inject_Z lo <= q <= inject_Z hi)%Q ->
  (inject_Z lo <= round q <= inject_Z hi)%Q.
Proof.
  intros Hlo Hhi [Hq1 Hq2]. unfold round.
  destruct q as [qn qd]. unfold Qle, inject_Z in Hq1, Hq2.
  cbn [Qnum Qden] in *.
  destruct qn as [|n|n].
  - unfold Qle, inject_Z. cbn [Qnum Qden]. lia.
  - apply round_pos_between; lia.
  - lia.
Qed.

(** [round(x, 2)] of a float between two integers: a whole number of
    hundredths between them, read back as a float between them. *)
Lemma py_round_between (x : Q) (lo hi : Z) :
  (0 <= lo)%Z -> (hi < 2 ^ 53)%Z ->
  (inject_Z lo <= x <= inject_Z hi)%Q ->
  (100 * lo <= round_scaled x 100 <= 100 * hi)%Z /\
  py_round x 2 = round (Qmake (round_scaled x 100) 100) /\
  (inject_Z lo <= py_round x 2 <= inject_Z hi)%Q.
Proof.
  intros Hlo Hhi [Hx1 Hx2].
  assert (100 * lo <= round_scaled x 100 <= 100 * hi)%Z as Hh.
  { unfold round_scaled. unfold Qle, inject_Z in Hx1, Hx2.
    cbn [Qnum Qden] in *. split.
    - apply rnd_even_ge; lia.
    - apply rnd_even_le; lia. }
  split; [exact Hh|]. split; [reflexivity|].
  change (py_round x 2) with (round (Qmake (round_scaled x 100) 100)).
  apply round_between; [done|done|].
  unfold Qle, inject_Z. cbn [Qnum Qden]. lia.
Qed.

End B64Facts.

(** ** Generated transactions *)

Module GenerateFacts.
Import B64 B64Facts.

Lemma sub_10000_1 : B64.sub 10000 1 = 9999%Q.
Proof. vm_compute. reflexivity. Qed.

(** [uniform(1.0, 10000.0)] stays between its end points, the upper one
    included. *)
Lemma uniform_between (d : draws) :
  (0 <= d_random d < 2 ^ 53)%Z ->
  (inject_Z 1 <= Random.uniform 1 10000 d <= inject_Z 10000)%Q.
Proof.
  intros Hd. unfold Random.uniform. rewrite sub_10000_1.
  assert (inject_Z 0 <= B64.mul 9999 (Random.random d) <= inject_Z 9999)%Q
    as Hmul.
  { unfold B64.mul. apply round_between; [lia|lia|].
    unfold Random.random, Qle, Qmult, inject_Z. cbn [Qnum Qden].
    change (Z.pos (1 * Z.to_pos (2 ^ 53))) with (2 ^ 53)%Z. lia. }
  unfold B64.add. apply round_between; [lia|lia|].
  change (inject_Z 0) with 0%Q in Hmul.
  change (inject_Z 9999) with 9999%Q in Hmul.
  change (inject_Z 1) with 1%Q. change (inject_Z 10000) with 10000%Q.
  lra.
Qed.

Lemma choice_type (d : draws) :
  (d_choice d < 2)%nat ->
  Random.choice ["sending"; "receiving"] d = "sending" \/
  Random.choice ["sending"; "receiving"] d = "receiving".
Proof.
  unfold Random.choice. intros Hc.
  destruct (d_choice d) as [|[|c]]; [by left|by right|lia].
Qed.

End GenerateFacts.

(** ** What a value denotes and what is serialised *)

Module DenoteFacts.
Import Spec.

Lemma json_nested_ind (P : json -> Prop) :
  P JNull -> (forall b, P (JBool b)) -> (forall z, P (JInt z)) ->
  (forall q, P (JFloat q)) -> (forall s, P (JStr s)) ->
  (forall js, Forall P js -> P (JArr js)) ->
  (forall jkvs, Forall (fun jkv : string * json => P jkv.2) jkvs ->
                P (JObj jkvs)) ->
  forall j, P j.
Proof.
  intros Hnull Hbool Hint Hfloat Hstr Harr Hobj.
  fix IH 1.
  intros [| b | z | q | s | js | jkvs];
    [apply Hnull | apply Hbool | apply Hint | apply Hfloat | apply Hstr | |].
  - apply Harr. revert js. fix IHjs 1. intros [|j js]; constructor.
    + apply IH.
    + apply IHjs.
  - apply Hobj. revert jkvs. fix IHjkvs 1. intros [|[k j] jkvs]; constructor.
    + apply IH.
    + apply IHjkvs.
Qed.

Lemma all2b_In {A B : Type} (f : A -> B -> bool) (xs : list A) (ys : list B)
    (x : A) :
  all2b f xs ys = true -> In x xs -> exists y, In y ys /\ f x y = true.
Proof.
  revert ys. induction xs as [|x' xs IH]; intros [|y ys]; cbn; try done.
  intros [Hxy Hrest]%andb_prop [->|Hin].
  - exists y. auto.
  - destruct (IH ys Hrest Hin) as (y' & Hy' & Hf). exists y'. auto.
Qed.

Lemma traverse_all2b {A B : Type} (f : A -> B -> bool) (g : B -> outcome A)
    (xs : list A) (ys : list B) :
  all2b f xs ys = true ->
  (forall x y, In x xs -> f x y = true -> g y = Ok x) ->
  Heap.traverse g ys = Ok xs.
Proof.
  revert ys. induction xs as [|x xs IH]; intros [|y ys]; cbn; try done.
  intros [Hxy Hrest]%andb_prop Hg.
  rewrite (Hg x y (or_introl eq_refl) Hxy).
  rewrite (IH ys Hrest); [done|].
  intros x' y' Hin. apply Hg. by right.
Qed.

Lemma all2b_inj {A B : Type} (f : A -> B -> bool) (xs xs' : list A)
    (ys : list B) :
  all2b f xs ys = true -> all2b f xs' ys = true ->
  (forall x x' y, In x xs -> f x y = true -> f x' y = true -> x = x') ->
  xs = xs'.
Proof.
  revert xs' ys. induction xs as [|x xs IH]; intros [|x' xs'] [|y ys]; cbn;
    try done.
  intros [Hxy Hrest]%andb_prop [Hxy' Hrest']%andb_prop Hinj.
  f_equal.
  - exact (Hinj x x' y (or_introl eq_refl) Hxy Hxy').
  - apply (IH xs' ys Hrest Hrest'). intros a a' b Hin. apply Hinj. by right.
Qed.

(** A value denotes at most one tree. *)
Lemma denotes_inj (h : gmap loc obj) (j : json) :
  forall (j' : json) (v : val),
    denotes h j v = true -> denotes h j' v = true -> j = j'.
Proof.
  induction j as [| b | z | q | s | js IH | jkvs IH] using json_nested_ind;
    intros j' v Hj Hj'.
  - destruct v; try discriminate Hj. by destruct j'.
  - destruct v; try discriminate Hj. destruct j'; try discriminate Hj'.
    cbn in Hj, Hj'. apply Bool.eqb_prop in Hj, Hj'. congruence.
  - destruct v; try discriminate Hj. destruct j'; try discriminate Hj'.
    cbn in Hj, Hj'. apply Z.eqb_eq in Hj, Hj'. congruence.
  - destruct v as [| | |q'| |]; try discriminate Hj.
    destruct j' as [| | |q''| | |]; try discriminate Hj'.
    cbn in Hj, Hj'.
    apply andb_prop in Hj as [Hn Hd], Hj' as [Hn' Hd'].
    apply Z.eqb_eq in Hn, Hn'. apply Pos.eqb_eq in Hd, Hd'.
    destruct q, q', q''. cbn in *. congruence.
  - destruct v; try discriminate Hj. destruct j'; try discriminate Hj'.
    cbn in Hj, Hj'. apply String.eqb_eq in Hj, Hj'. congruence.
  - destruct v as [| | | | |l]; try discriminate Hj. cbn in Hj.
    destruct (h !! l) as [[kvs|vs]|] eqn:Hl; try discriminate Hj.
    destruct j' as [| | | | |js'|jkvs']; try discriminate Hj';
      cbn in Hj'; rewrite Hl in Hj'; try discriminate Hj'.
    f_equal. apply (all2b_inj _ js js' vs Hj Hj').
    intros x x' y Hin Hx Hx'.
    rewrite List.Forall_forall in IH. exact (IH x Hin x' y Hx Hx').
  - destruct v as [| | | | |l]; try discriminate Hj. cbn in Hj.
    destruct (h !! l) as [[kvs|vs]|] eqn:Hl; try discriminate Hj.
    destruct j' as [| | | | |js'|jkvs']; try discriminate Hj';
      cbn in Hj'; rewrite Hl in Hj'; try discriminate Hj'.
    f_equal. apply (all2b_inj _ jkvs jkvs' kvs Hj Hj').
    intros [k x] [k' x'] [k'' y] Hin. cbn.
    intros [Hk Hx]%andb_prop [Hk' Hx']%andb_prop.
    apply String.eqb_eq in Hk, Hk'.
    rewrite List.Forall_forall in IH. specialize (IH (k, x) Hin). cbn in IH.
    rewrite (IH x' y Hx Hx'). congruence.
Qed.

Lemma list_max_In (n : nat) (ns : list nat) : In n ns -> n <= list_max ns.
Proof.
  intros Hin.
  pose proof (proj1 (list_max_le ns (list_max ns)) (le_n _)) as Hall.
  rewrite List.Forall_forall in Hall. by apply Hall.
Qed.

Lemma list_sum_In (n : nat) (ns : list nat) : In n ns -> n <= list_sum ns.
Proof.
  induction ns as [|m ns IH]; [done|].
  change (list_sum (m :: ns)) with (m + list_sum ns).
  intros [->|Hin]; [lia|]. specialize (IH Hin). lia.
Qed.

(** Fuel for the depth of the tree is enough to serialise the value. *)
Lemma dumps_fuel_denotes (h : gmap loc obj) (j : json) :
  forall (n : nat) (v : val),
    denotes h j v = true -> depth j <= n -> Heap.dumps_fuel n h v = Ok j.
Proof.
  induction j as [| b | z | q | s | js IH | jkvs IH] using json_nested_ind;
    intros n v Hj Hn.
  - destruct v; try discriminate Hj. by destruct n.
  - destruct v; try discriminate Hj. cbn in Hj.
    apply Bool.eqb_prop in Hj as ->. by destruct n.
  - destruct v; try discriminate Hj. cbn in Hj.
    apply Z.eqb_eq in Hj as ->. by destruct n.
  - destruct v as [| | |q'| |]; try discriminate Hj. cbn in Hj.
    apply andb_prop in Hj as [Hnum Hden].
    apply Z.eqb_eq in Hnum. apply Pos.eqb_eq in Hden.
    destruct q, q'. cbn in *. subst. by destruct n.
  - destruct v; try discriminate Hj. cbn in Hj.
    apply String.eqb_eq in Hj as ->. by destruct n.
  - destruct v as [| | | | |l]; try discriminate Hj. cbn in Hj.
    destruct (h !! l) as [[kvs|vs]|] eqn:Hl; try discriminate Hj.
    cbn [depth] in Hn. destruct n as [|n]; [lia|].
    cbn [Heap.dumps_fuel]. rewrite Hl.
    rewrite (traverse_all2b (denotes h) (Heap.dumps_fuel n h) js vs Hj);
      [done|].
    intros x y Hin Hxy. rewrite List.Forall_forall in IH.
    apply (IH x Hin n y Hxy).
    pose proof (list_max_In (depth x) (map depth js) (in_map depth js x Hin)).
    lia.
  - destruct v as [| | | | |l]; try discriminate Hj. cbn in Hj.
    destruct (h !! l) as [[kvs|vs]|] eqn:Hl; try discriminate Hj.
    cbn [depth] in Hn. destruct n as [|n]; [lia|].
    cbn [Heap.dumps_fuel]. rewrite Hl.
    erewrite (traverse_all2b _ _ jkvs kvs Hj); [done|].
    intros [k x] [k' y] Hin. cbn.
    intros [Hk Hxy]%andb_prop. apply String.eqb_eq in Hk as ->.
    rewrite List.Forall_forall in IH. specialize (IH (k', x) Hin). cbn in IH.
    rewrite (IH n y Hxy); [done|].
    pose proof (list_max_In (depth x)
                  (map (fun jkv : string * json => depth jkv.2) jkvs)
                  (in_map (fun jkv : string * json => depth jkv.2)
                          jkvs (k', x) Hin)).
    lia.
Qed.

(** The containers nested in a denoted tree sit at distinct locations of
    the heap, so the tree is no deeper than the heap has objects.  [seen]
    holds the locations of the containers around [j]. *)
Lemma depth_bound (h : gmap loc obj) (j : json) :
  forall (v : val) (seen : gset loc),
    denotes h j v = true ->
    seen ⊆ dom h ->
    (forall l j', l ∈ seen -> denotes h j' (VRef l) = true ->
                  nodes j < nodes j') ->
    depth j + size seen <= size (dom h).
Proof.
  assert (forall (seen : gset loc) (l : loc) (j : json)
                 (depths : list nat),
            denotes h j (VRef l) = true ->
            is_Some (h !! l) ->
            seen ⊆ dom h ->
            (forall l' j', l' ∈ seen -> denotes h j' (VRef l') = true ->
                           nodes j < nodes j') ->
            (forall k, In k depths ->
                       k + size ({[l]} ∪ seen) <= size (dom h)) ->
            S (list_max depths) + size seen <= size (dom h)) as Hstep.
  { intros seen l j0 depths Hj Hl Hseen Hnodes Hdepths.
    assert (l ∉ seen) as Hfresh.
    { intros Hin. specialize (Hnodes l j0 Hin Hj). lia. }
    assert (size ({[l]} ∪ seen) = S (size seen)) as Hsize.
    { rewrite size_union by set_solver. by rewrite size_singleton. }
    assert ({[l]} ∪ seen ⊆ dom h) as Hsub.
    { apply union_subseteq. split; [|done].
      apply singleton_subseteq_l. by apply elem_of_dom. }
    apply subseteq_size in Hsub. rewrite Hsize in *.
    assert (list_max depths <= size (dom h) - S (size seen)); [|lia].
    apply list_max_le, List.Forall_forall. intros k Hk.
    specialize (Hdepths k Hk). lia. }
  induction j as [| b | z | q | s | js IH | jkvs IH] using json_nested_ind;
    intros v seen Hj Hseen Hnodes;
    try (cbn [depth]; apply subseteq_size in Hseen; lia).
  - destruct v as [| | | | |l]; try discriminate Hj.
    pose proof Hj as Hvs. cbn in Hvs.
    destruct (h !! l) as [[kvs|vs]|] eqn:Hl; try discriminate Hvs.
    cbn [depth].
    apply (Hstep seen l (JArr js)); [done|by rewrite Hl|done|done|].
    intros k (x & <- & Hin)%in_map_iff.
    destruct (all2b_In _ _ _ x Hvs Hin) as (y & _ & Hxy).
    rewrite List.Forall_forall in IH. apply (IH x Hin y); [done| |].
    + apply union_subseteq. split; [|done].
      apply singleton_subseteq_l, elem_of_dom. by rewrite Hl.
    + assert (nodes x < nodes (JArr js)) as Hlt.
      { cbn [nodes].
        pose proof (list_sum_In (nodes x) (map nodes js)
                      (in_map nodes js x Hin)). lia. }
      intros l' j' [Hl'%elem_of_singleton|Hl']%elem_of_union Hj'.
      * subst l'. rewrite <- (denotes_inj h _ _ _ Hj Hj'). exact Hlt.
      * specialize (Hnodes l' j' Hl' Hj'). lia.
  - destruct v as [| | | | |l]; try discriminate Hj.
    pose proof Hj as Hkvs. cbn in Hkvs.
    destruct (h !! l) as [[kvs|vs]|] eqn:Hl; try discriminate Hkvs.
    cbn [depth].
    apply (Hstep seen l (JObj jkvs)); [done|by rewrite Hl|done|done|].
    intros k ([k' x] & <- & Hin)%in_map_iff. cbn [snd].
    destruct (all2b_In _ _ _ (k', x) Hkvs Hin) as ([k'' y] & _ & Hxy).
    cbn in Hxy. apply andb_prop in Hxy as [_ Hxy].
    rewrite List.Forall_forall in IH. specialize (IH (k', x) Hin). cbn in IH.
    apply (IH y); [done| |].
    + apply union_subseteq. split; [|done].
      apply singleton_subseteq_l, elem_of_dom. by rewrite Hl.
    + assert (nodes x < nodes (JObj jkvs)) as Hlt.
      { cbn [nodes].
        pose proof (list_sum_In (nodes x)
                      (map (fun jkv : string * json => nodes jkv.2) jkvs)
                      (in_map (fun jkv : string * json => nodes jkv.2)
                              jkvs (k', x) Hin)). cbn in *. lia. }
      intros l' j' [Hl'%elem_of_singleton|Hl']%elem_of_union Hj'.
      * subst l'. rewrite <- (denotes_inj h _ _ _ Hj Hj'). exact Hlt.
      * specialize (Hnodes l' j' Hl' Hj'). lia.
Qed.

(** What a value denotes is what [json.dumps] makes of it: the fuel of
    [Heap.dumps], one unit per object of the heap, is always enough. *)
Lemma denotes_dumps (h : gmap loc obj) (j : json) (v : val) :
  denotes h j v = true -> Heap.dumps h v = Ok j.
Proof.
  intros Hj. unfold Heap.dumps. apply dumps_fuel_denotes; [done|].
  pose proof (depth_bound h j v ∅ Hj (empty_subseteq _)) as Hbound.
  rewrite size_empty, size_dom in Hbound.
  rewrite Nat.add_0_r in Hbound. apply Hbound. set_solver.
Qed.

End DenoteFacts.

(** ** The claims about the client *)

Section Claims.
Context {srv : Type} (serve : request -> srv -> response * srv).

(** C1.  When the search response is a mapping whose [revisions] is a
    sequence of revisions (each with a [document] mapping whose nested
    [document], if any, is a sequence), [get_all_transaction] returns the
    flat list of the specification: the revisions in order, a batch
    revision contributing the elements of its nested sequence in order,
    any other revision its [document] mapping, and nothing else. *)
Theorem get_all_transaction_flattens (w : world srv)
    (kvs : list (string * json)) (revisions : list json) :
  json_body (serve Spec.search_request (remote w)).1 = Some (JObj kvs) ->
  assoc_get "revisions" kvs = Some (JArr revisions) ->
  forallb Spec.revision_shaped revisions = true ->
  (get_all_transaction serve w).1 = Ok (Spec.flatten revisions).
Proof.
  intros Hbody Hrevs Hshape.
  rewrite get_all_transaction_run, get_data_request_run. cbn [fst snd].
  rewrite Hbody. unfold mbind, outcome_bind. cbn [Json.get].
  rewrite Hrevs. cbn [default from_option id Json.iter].
  by rewrite for_each_shaped.
Qed.

(** C4.  For an input that denotes the tree [j] (the input itself with
    every reference replaced by the object it refers to),
    [put_data_request] sends one PUT whose body is the mapping with the
    single key [document] holding [j] when the input is a list, the empty
    list included, and [j] itself, unwrapped, when the input is a single
    mapping. *)
Theorem put_data_request_body (w : world srv) (data : val) (j : json) :
  Spec.denotes (heap w) j data = true ->
  (Heap.is_list (heap w) data = true ->
   sent (put_data_request serve data w).2
   = (sent w ++ [Request PUT document_url put_headers
                         (Some (JObj [("document", j)]))])%list) /\
  (Heap.is_list (heap w) data = false -> data <> VNone ->
   sent (put_data_request serve data w).2
   = (sent w ++ [Request PUT document_url put_headers (Some j)])%list).
Proof.
  intros Hj%DenoteFacts.denotes_dumps.
  rewrite (put_data_request_run serve w data j Hj). cbn [snd sent].
  unfold Spec.put_request, Spec.put_body, Spec.batch_envelope.
  split.
  - intros Hlist. rewrite Hlist. by destruct data.
  - intros Hlist Hnone. rewrite Hlist. by destruct data.
Qed.

(** C5.  Whatever the service answers to the PUT, [put_data_request]
    returns [True] exactly when the status code is 200 and [False] for
    every other code. *)
Theorem put_data_request_status (w : world srv) (data : val) (j : json) :
  Heap.dumps (heap w) data = Ok j ->
  let r := (serve (Spec.put_request (heap w) data j) (remote w)).1 in
  ((put_data_request serve data w).1 = Ok true <-> status_code r = 200%Z) /\
  (status_code r <> 200%Z -> (put_data_request serve data w).1 = Ok false).
Proof.
  intros Hj r. rewrite (put_data_request_run serve w data j Hj). cbn [fst].
  fold r. destruct (Z.eqb_spec (status_code r) 200) as [Heq|Hne].
  - split; [done|]. intros Hne. by destruct Hne.
  - split; [|done]. split; [discriminate|]. intros Heq. by destruct Hne.
Qed.

(** C6.  Whatever the status code of the answer to the search,
    [get_data_request] returns what [response.json()] gives: the parsed
    body itself, never a boolean or a value made from the status. *)
Theorem get_data_request_verbatim (w : world srv) :
  (get_data_request serve w).1 =
  match json_body (serve Spec.search_request (remote w)).1 with
  | Some j => Ok j
  | None => Raise JSONDecodeError
  end.
Proof. by rewrite get_data_request_run. Qed.

(** C7.  When the search response is a mapping without a [revisions]
    member, [get_all_transaction] returns nothing: [revision] is [None]
    and the [for] loop over it raises, no check coming before. *)
Theorem get_all_transaction_without_revisions (w : world srv)
    (kvs : list (string * json)) :
  json_body (serve Spec.search_request (remote w)).1 = Some (JObj kvs) ->
  assoc_get "revisions" kvs = None ->
  (get_all_transaction serve w).1 = Raise (TypeError_not_iterable "NoneType").
Proof.
  intros Hbody Hrevs.
  rewrite get_all_transaction_run, get_data_request_run. cbn [fst snd].
  rewrite Hbody. unfold mbind, outcome_bind. cbn [Json.get].
  by rewrite Hrevs.
Qed.


(** C9.  Every call of [get_data_request] sends exactly one request: a
    POST to the search endpoint whose JSON body is page 1 with 100 per
    page, with the API key in its headers.  The function has no argument
    and the request does not depend on the world it runs in. *)
Theorem get_data_request_fixed_page (w : world srv) :
  sent (get_data_request serve w).2
  = (sent w ++ [Spec.search_request])%list /\
  req_method Spec.search_request = POST /\
  req_url Spec.search_request = search_url /\
  req_json Spec.search_request
  = Some (JObj [("page", JInt 1); ("perPage", JInt 100)]) /\
  assoc_get "X-API-Key" (req_headers Spec.search_request) = Some APIKey.
Proof. rewrite get_data_request_run. by repeat split. Qed.

(** C10.  [put_data_request] leaves every object of the caller's heap as
    it was, the transaction or list it is given included: the batch
    envelope is a new object. *)
Theorem put_data_request_frame (w : world srv) (data : val) :
  heap w ⊆ heap (put_data_request serve data w).2.
Proof.
  rewrite put_data_request_heap.
  destruct (Heap.is_list (heap w) data); [|done].
  apply insert_subseteq, fresh_lookup_None.
Qed.

End Claims.

(** ** The claim about generated transactions *)

Lemma field_alloc {srv : Type} (w : world srv) (kvs : list (string * val))
    (k : string) :
  Heap.field (heap (alloc (ODict kvs) w).2) (VRef (fresh (dom (heap w)))) k
  = assoc_get k kvs.
Proof. unfold alloc, Heap.field. cbn [snd heap]. by rewrite lookup_insert_eq. Qed.

(** C2, amended.  For draws the libraries can produce, the transaction
    of [generate_transaction] has an [account_number] of exactly 26
    decimal digits, an [amount] that is the float of a whole number of
    hundredths and lies in the closed interval from 1.00 to 10000.00, and
    a [type] that is ['sending'] or ['receiving']. *)
Theorem generate_transaction_fields {srv : Type} (d : draws) (w : world srv) :
  valid_draws d ->
  exists (t : val) (number : string) (hundredths : Z) (amount : Q),
    (generate_transaction d w).1 = Ok t /\
    Heap.field (heap (generate_transaction d w).2) t "account_number"
    = Some (VStr number) /\
    String.length number = 26%nat /\
    PyStr.all_digits number = true /\
    Heap.field (heap (generate_transaction d w).2) t "amount"
    = Some (VFloat amount) /\
    amount = B64.round (Qmake hundredths 100) /\
    (100 <= hundredths <= 1000000)%Z /\
    (1 <= amount <= 10000)%Q /\
    (Heap.field (heap (generate_transaction d w).2) t "type"
     = Some (VStr "sending") \/
     Heap.field (heap (generate_transaction d w).2) t "type"
     = Some (VStr "receiving")).
Proof.
  intros (Hnumber & Hrandom & Hchoice).
  destruct (PyStrFacts.str_int_digits 25 (d_random_number d)) as [Hlen Hdig].
  { change (10 ^ Z.of_nat 25)%Z with (10 ^ 25)%Z. lia. }
  destruct (B64Facts.py_round_between (Random.uniform 1 10000 d) 1 10000)
    as (Hh & Heq & Hamount); [lia|lia|by apply GenerateFacts.uniform_between|].
  exists (VRef (fresh (dom (heap w)))), (PyStr.str_int (d_random_number d)),
    (B64.round_scaled (Random.uniform 1 10000 d) 100),
    (B64.py_round (Random.uniform 1 10000 d) 2).
  unfold generate_transaction. rewrite !field_alloc.
  split; [reflexivity|]. split; [reflexivity|].
  split; [exact Hlen|]. split; [exact Hdig|].
  split; [reflexivity|]. split; [exact Heq|].
  split; [lia|]. split; [exact Hamount|].
  destruct (GenerateFacts.choice_type d Hchoice) as [Hty|Hty];
    [left|right]; cbn [assoc_get String.eqb Ascii.eqb Bool.eqb];
    by rewrite Hty.
Qed.

(** C2 as stated fails: with the largest [random()] the amount is
    10000.0, which is not below 10000.00. *)
Lemma generate_transaction_amount_reaches_10000 :
  valid_draws Sample.top_draws /\
  exists (t : val) (amount : Q),
    (generate_transaction Sample.top_draws Sample.idle).1 = Ok t /\
    Heap.field (heap (generate_transaction Sample.top_draws Sample.idle).2)
               t "amount" = Some (VFloat amount) /\
    ~ (amount < 10000)%Q.
Proof.
  split.
  - unfold valid_draws, Sample.top_draws. cbn [d_random_number d_random d_choice].
    lia.
  - exists (VRef 1%positive), 10000%Q.
    split; [vm_compute; reflexivity|]. split; [vm_compute; reflexivity|].
    apply Qle_not_lt, Qle_refl.
Qed.

Lemma generate_transaction_fields_witness :
  valid_draws Sample.mid_draws /\
  exists (t : val) (number : string) (hundredths : Z) (amount : Q),
    (generate_transaction Sample.mid_draws Sample.idle).1 = Ok t /\
    Heap.field (heap (generate_transaction Sample.mid_draws Sample.idle).2)
               t "account_number" = Some (VStr number) /\
    String.length number = 26%nat /\
    PyStr.all_digits number = true /\
    Heap.field (heap (generate_transaction Sample.mid_draws Sample.idle).2)
               t "amount" = Some (VFloat amount) /\
    amount = B64.round (Qmake hundredths 100) /\
    (100 <= hundredths <= 1000000)%Z /\
    (1 <= amount <= 10000)%Q /\
    (Heap.field (heap (generate_transaction Sample.mid_draws Sample.idle).2)
                t "type" = Some (VStr "sending") \/
     Heap.field (heap (generate_transaction Sample.mid_draws Sample.idle).2)
                t "type" = Some (VStr "receiving")).
Proof.
  assert (valid_draws Sample.mid_draws) as Hvalid.
  { unfold valid_draws, Sample.mid_draws.
    cbn [d_random_number d_random d_choice]. lia. }
  split; [exact Hvalid|].
  exact (generate_transaction_fields Sample.mid_draws Sample.idle Hvalid).
Defined.

(** ** The overwrite test *)

(** [dict.update] gives its caller nothing back. *)
Lemma dict_update_returns_None {srv : Type} (d : val)
    (members : list (string * val)) (w : world srv) (v : val) :
  (dict_update d members w).1 = Ok v -> v = VNone.
Proof.
  unfold dict_update. destruct d; try discriminate.
  destruct (heap w !! l) as [[kvs|vs]|]; try discriminate.
  by intros [= <-].
Qed.

Section OverwriteFacts.
Context {srv : Type} (serve : request -> srv -> response * srv).

Lemma dumps_None (h : gmap loc obj) : Heap.dumps h VNone = Ok JNull.
Proof. unfold Heap.dumps. by destruct (size h). Qed.

(** A call of [put_data_request] sends at most one request, and exactly
    one when it returns. *)
Lemma put_data_request_sent (w : world srv) (data : val) :
  (exists e, (put_data_request serve data w).1 = Raise e /\
             sent (put_data_request serve data w).2 = sent w) \/
  (exists b req, (put_data_request serve data w).1 = Ok b /\
                 sent (put_data_request serve data w).2
                 = (sent w ++ [req])%list).
Proof.
  unfold put_data_request, isinstance_list, requests_json, encode_json, alloc,
    dumps, http.
  unfold mbind, M_bind, mret, M_ret. cbn beta iota.
  destruct (Heap.is_list (heap w) data) eqn:Hlist.
  - destruct data; try discriminate Hlist. cbn [heap remote sent stdout].
    destruct (Heap.dumps _ _) as [j|[]]; try (left; by eexists).
    cbn [heap remote sent stdout].
    destruct (serve _ (remote w)) as [r srv1]. right.
    destruct (status_code r =? 200)%Z; by eexists _, _.
  - destruct data; cbn [heap remote sent stdout];
      try (destruct (Heap.dumps _ _) as [j|[]]; try (left; by eexists));
      destruct (serve _ (remote w)) as [r srv1]; right;
      destruct (status_code r =? 200)%Z; by eexists _, _.
Qed.

Lemma dict_update_sent (d : val) (members : list (string * val))
    (w : world srv) :
  sent (dict_update d members w).2 = sent w.
Proof.
  unfold dict_update. destruct d; try done.
  by destruct (heap w !! l) as [[kvs|vs]|].
Qed.

(** Looking for the transaction reads the heap and changes nothing. *)
Lemma any_overwritten_world (transaction : val) (xs : list json)
    (w : world srv) :
  (any_overwritten transaction xs w).2 = w.
Proof.
  induction xs as [|i xs IH]; [done|].
  cbn [any_overwritten]. unfold mbind, M_bind, lift, getitem, py_eq, mret, M_ret.
  destruct (Json.get i "account_number") as [number|]; [|done].
  destruct transaction; try done.
  destruct (heap w !! l) as [[kvs|vs]|]; try done.
  destruct (assoc_get "account_number" kvs) as [expected|]; [|done].
  destruct (Heap.py_eq (heap w) number expected).
  - destruct (Json.get i "amount") as [amount|]; [|done].
    destruct (Json.eq_int amount 999); [done|exact IH].
  - exact IH.
Qed.

(** Whatever the transaction, the world and the service are: if
    [test_transaction_overwriting] gets as far as a second request, that
    request is a PUT without a body. *)
Lemma test_transaction_overwriting_second_request (transaction : val)
    (w : world srv) (req : request) :
  drop (length (sent w))
       (sent (test_transaction_overwriting serve transaction w).2) !! 1%nat
  = Some req ->
  req = Request PUT document_url put_headers None.
Proof.
  unfold test_transaction_overwriting. unfold mbind at 1, M_bind at 1.
  destruct (put_data_request_sent w transaction)
    as [(e & Hout & Hsent)|(b & req1 & Hout & Hsent)];
    destruct (put_data_request serve transaction w) as [o1 w1];
    cbn [fst snd] in Hout, Hsent; subst o1.
  { cbn beta iota. cbn [snd]. rewrite Hsent, drop_all. discriminate. }
  cbn beta iota. unfold mbind at 1, M_bind at 1.
  pose proof (dict_update_sent transaction [("amount", VInt 999)] w1) as Hsent2.
  pose proof (dict_update_returns_None transaction [("amount", VInt 999)] w1)
    as Hnone.
  destruct (dict_update transaction [("amount", VInt 999)] w1) as [[u|e] w2];
    cbn [fst snd] in Hsent2, Hnone.
  2: { cbn beta iota. cbn [snd]. rewrite Hsent2, Hsent, drop_app_length. discriminate. }
  rewrite (Hnone u eq_refl). cbn beta iota.
  unfold mbind at 1, M_bind at 1.
  rewrite (put_data_request_run serve w2 VNone JNull (dumps_None _)).
  unfold mbind at 1, M_bind at 1.
  rewrite get_all_transaction_run, get_data_request_run.
  cbn [fst snd heap remote sent stdout Heap.is_list Spec.put_request].
  set (w4 := World _ _ _ _).
  assert (sent w4 = (sent w ++ [req1; Request PUT document_url put_headers None;
                                Spec.search_request])%list) as Hsent4.
  { unfold w4. cbn [sent]. rewrite Hsent2, Hsent, <- !app_assoc. done. }
  assert (forall out : outcome unit * world srv, out.2 = w4 ->
            drop (length (sent w)) (sent out.2) !! 1%nat = Some req ->
            req = Request PUT document_url put_headers None) as Hfinal.
  { intros out ->. rewrite Hsent4, drop_app_length. by intros [= <-]. }
  match goal with
  | |- context [match ?o with Some _ => _ | None => _ end] =>
      destruct o as [current_data|]
  end; [|by apply Hfinal].
  destruct (revision ← Json.get current_data "revisions";
            revisions ← Json.iter revision;
            for_each visit_revision revisions []) as [all_doc|e];
    [|by apply Hfinal].
  unfold mbind at 1, M_bind at 1.
  pose proof (any_overwritten_world transaction all_doc w4) as Hw.
  destruct (any_overwritten transaction all_doc w4) as [[[|]|e] w5];
    cbn [snd] in Hw; subst w5; by apply Hfinal.
Qed.

End OverwriteFacts.

(** C3, on the code.  The test passes the result of [dict.update], which
    is [None], to the second [put_data_request]: the second PUT carries
    no body.  For a transaction drawn with amount 5000.5 and an empty
    vault, a store that rejects the empty PUT leaves the assertion
    failing, and a store that appends a revision holding [null] makes
    [get_all_transaction] raise; no run finds the amount 999.  The
    scenario the specification describes, which writes the updated
    transaction, passes on the same input. *)
Theorem test_transaction_overwriting_second_write_empty :
  valid_draws Sample.mid_draws /\
  map req_json
      (sent (run_test_transaction_overwriting (Vault.serve false)
               Sample.mid_draws Vault.empty).2) !! 1%nat = Some None /\
  (run_test_transaction_overwriting (Vault.serve false)
     Sample.mid_draws Vault.empty).1
  = Raise (AssertionError "Transaction not found in current data.") /\
  (run_test_transaction_overwriting (Vault.serve true)
     Sample.mid_draws Vault.empty).1
  = Raise (AttributeError "NoneType" "keys") /\
  ((transaction ← generate_transaction Sample.mid_draws;
    Spec.overwrite_scenario (Vault.serve false) transaction) Vault.empty).1
  = Ok tt.
Proof.
  split.
  - unfold valid_draws, Sample.mid_draws.
    cbn [d_random_number d_random d_choice]. lia.
  - repeat split; vm_compute; reflexivity.
Qed.

(** ** The theorems at sample inputs *)

Lemma get_all_transaction_flattens_witness :
  (get_all_transaction
     (Sample.constant
        (Response 200 EmptyString
           (Some (JObj [("revisions", JArr Sample.mixed_revisions)]))))
     Sample.idle).1
  = Ok [JObj [("account_number", JStr "1")];
        JObj [("account_number", JStr "2")];
        JObj [("account_number", JStr "3")]].
Proof.
  apply (get_all_transaction_flattens
           (Sample.constant
              (Response 200 EmptyString
                 (Some (JObj [("revisions", JArr Sample.mixed_revisions)]))))
           Sample.idle
           [("revisions", JArr Sample.mixed_revisions)]
           Sample.mixed_revisions);
    reflexivity.
Defined.

Lemma put_data_request_body_witness :
  (sent (put_data_request (Vault.serve false) (VRef 3%positive)
           Sample2.stocked).2
   = [Request PUT document_url put_headers
              (Some (JObj [("document",
                            JArr [JObj [("amount", JInt 5)];
                                  JObj [("amount", JInt 5)]])]))]) /\
  (sent (put_data_request (Vault.serve false) (VRef 1%positive)
           Sample.two_objects_world).2
   = [Request PUT document_url put_headers
              (Some (JObj [("document", JArr [])]))]) /\
  (sent (put_data_request (Vault.serve false) (VRef 2%positive)
           Sample.two_objects_world).2
   = [Request PUT document_url put_headers
              (Some (JObj [("amount", JInt 5)]))]).
Proof.
  split; [|split].
  - apply (put_data_request_body (Vault.serve false) Sample2.stocked
             (VRef 3%positive)
             (JArr [JObj [("amount", JInt 5)]; JObj [("amount", JInt 5)]]));
      vm_compute; reflexivity.
  - apply (put_data_request_body (Vault.serve false) Sample.two_objects_world
             (VRef 1%positive) (JArr []));
      vm_compute; reflexivity.
  - apply (put_data_request_body (Vault.serve false) Sample.two_objects_world
             (VRef 2%positive) (JObj [("amount", JInt 5)]));
      [vm_compute; reflexivity | vm_compute; reflexivity | discriminate].
Defined.

Lemma put_data_request_status_witness :
  Heap.dumps Sample.two_objects (VRef 2%positive)
  = Ok (JObj [("amount", JInt 5)]) /\
  (put_data_request (Sample.constant Sample.error_payload) (VRef 2%positive)
     (World Sample.two_objects tt [] [])).1 = Ok false.
Proof.
  assert (Heap.dumps Sample.two_objects (VRef 2%positive)
          = Ok (JObj [("amount", JInt 5)])) as Hdumps
    by (vm_compute; reflexivity).
  split; [exact Hdumps|].
  apply (put_data_request_status (Sample.constant Sample.error_payload)
           (World Sample.two_objects tt [] []) (VRef 2%positive)
           (JObj [("amount", JInt 5)]) Hdumps).
  discriminate.
Defined.

Lemma get_all_transaction_without_revisions_witness :
  (get_all_transaction (Sample.constant Sample.error_payload) Sample.idle).1
  = Raise (TypeError_not_iterable "NoneType").
Proof.
  apply (get_all_transaction_without_revisions
           (Sample.constant Sample.error_payload) Sample.idle
           [("error", JStr "unauthorized")]);
    reflexivity.
Defined.

(** * More about the client *)

Section MoreClientFacts.
Context {srv : Type} (serve : request -> srv -> response * srv).

(** ** Writing *)

(** [put_data_request] never prints, and whenever it returns a value it
    has issued exactly one request: a PUT to the document endpoint with
    the three headers. *)
Theorem put_data_request_one_request (w : world srv) (data : val) :
  stdout (put_data_request serve data w).2 = stdout w /\
  forall b : bool,
    (put_data_request serve data w).1 = Ok b ->
    exists body : option json,
      sent (put_data_request serve data w).2
      = (sent w ++ [Request PUT document_url put_headers body])%list.
Proof.
  unfold put_data_request, isinstance_list, requests_json, encode_json, alloc,
    dumps, http.
  unfold mbind, M_bind, mret, M_ret. cbn beta iota.
  destruct (Heap.is_list (heap w) data) eqn:Hlist.
  - destruct data; try discriminate Hlist. cbn [heap remote sent stdout].
    destruct (Heap.dumps _ _) as [j|[]]; try done.
    cbn [heap remote sent stdout].
    destruct (serve _ (remote w)) as [r srv1].
    destruct (status_code r =? 200)%Z; cbn [fst snd sent stdout];
      (split; [done|by eexists]).
  - destruct data; cbn [heap remote sent stdout];
      try (destruct (Heap.dumps _ _) as [j|[]]; try done);
      destruct (serve _ (remote w)) as [r srv1];
      destruct (status_code r =? 200)%Z; cbn [fst snd sent stdout];
      (split; [done|by eexists]).
Qed.


(** A list that is its own first element cannot be serialised, however
    much fuel there is. *)
Lemma dumps_fuel_self (n : nat) (h : gmap loc obj) (l : loc)
    (rest : list val) :
  h !! l = Some (OList (VRef l :: rest)) ->
  Heap.dumps_fuel n h (VRef l) = Raise ValueError_circular_reference.
Proof.
  intros Hl. induction n as [|n IH]; [done|].
  cbn [Heap.dumps_fuel]. rewrite Hl. cbn [Heap.traverse]. by rewrite IH.
Qed.

(** A batch that contains itself is refused before anything is sent:
    [json.dumps] detects the circular reference, and [requests] raises
    its [InvalidJSONError] in place of that [ValueError]. *)
Theorem put_data_request_circular (w : world srv) (l : loc)
    (rest : list val) :
  heap w !! l = Some (OList (VRef l :: rest)) ->
  (put_data_request serve (VRef l) w).1 = Raise InvalidJSONError /\
  sent (put_data_request serve (VRef l) w).2 = sent w /\
  remote (put_data_request serve (VRef l) w).2 = remote w.
Proof.
  intros Hl.
  unfold put_data_request, isinstance_list, requests_json, encode_json, alloc,
    dumps, http.
  unfold mbind, M_bind, mret, M_ret. cbn beta iota.
  unfold Heap.is_list. rewrite Hl. cbn [heap remote sent stdout].
  unfold Heap.dumps.
  rewrite map_size_insert_None by apply fresh_lookup_None.
  cbn [Heap.dumps_fuel]. rewrite lookup_insert_eq.
  cbn [Heap.traverse snd].
  rewrite (dumps_fuel_self _ _ l rest); [done|].
  rewrite lookup_insert_ne; [done|].
  intros Heq. pose proof (fresh_lookup_None (heap w)) as Hfresh.
  rewrite Heq, Hl in Hfresh. discriminate.
Qed.

End MoreClientFacts.

Section GenerateAndSend.
Context {srv : Type} (serve : request -> srv -> response * srv).

Lemma generate_transaction_run (d : draws) (w : world srv) :
  generate_transaction d w =
  (Ok (VRef (fresh (dom (heap w)))),
   World (<[fresh (dom (heap w)) := ODict (transaction_members d)]> (heap w))
         (remote w) (sent w) (stdout w)).
Proof. reflexivity. Qed.

(** A freshly allocated transaction serialises to its six members, in
    the order the dict display lists them. *)
Lemma dumps_transaction (d : draws) (h : gmap loc obj) (l : loc) :
  h !! l = None ->
  Heap.dumps (<[l := ODict (transaction_members d)]> h) (VRef l)
  = Ok (transaction_json d).
Proof.
  intros Hl. unfold Heap.dumps.
  rewrite map_size_insert_None by exact Hl. cbn [Heap.dumps_fuel].
  rewrite lookup_insert_eq. by destruct (size h).
Qed.

Lemma is_list_transaction (d : draws) (h : gmap loc obj) (l : loc) :
  Heap.is_list (<[l := ODict (transaction_members d)]> h) (VRef l) = false.
Proof. unfold Heap.is_list. by rewrite lookup_insert_eq. Qed.



(** Two calls of [generate_transaction] give two distinct objects, each
    with its own members; every object that existed before is unchanged,
    nothing is sent and nothing printed. *)
Theorem generate_transaction_twice (d1 d2 : draws) (w : world srv) :
  exists (l1 l2 : loc) (h : gmap loc obj),
    (t1 ← generate_transaction d1;
     t2 ← generate_transaction d2;
     mret (t1, t2)) w
    = (Ok (VRef l1, VRef l2), World h (remote w) (sent w) (stdout w)) /\
    l1 <> l2 /\
    h !! l1 = Some (ODict (transaction_members d1)) /\
    h !! l2 = Some (ODict (transaction_members d2)) /\
    heap w ⊆ h.
Proof.
  set (l1 := fresh (dom (heap w))).
  set (h1 := <[l1 := ODict (transaction_members d1)]> (heap w)).
  set (l2 := fresh (dom h1)).
  exists l1, l2, (<[l2 := ODict (transaction_members d2)]> h1).
  assert (l1 <> l2) as Hne.
  { intros Heq. pose proof (fresh_lookup_None h1) as Hfresh.
    fold l2 in Hfresh. rewrite <- Heq in Hfresh. unfold h1 in Hfresh.
    rewrite lookup_insert_eq in Hfresh. discriminate. }
  split; [reflexivity|]. split; [exact Hne|]. split.
  - rewrite lookup_insert_ne by congruence. apply lookup_insert_eq.
  - split; [apply lookup_insert_eq|].
    transitivity h1; apply insert_subseteq, fresh_lookup_None.
Qed.

(** ** Deleting and searching *)

(** [delete_collection] sends exactly one DELETE to the collection, with
    no body and with the key both as bearer token and as API key; it
    leaves the heap alone and prints the response first.  On status 200
    that line is all it prints. *)
Theorem delete_collection_request (w : world srv) :
  let r := (serve Spec.delete_request (remote w)).1 in
  sent (delete_collection serve w).2
  = (sent w ++ [Request DELETE collection_url delete_headers None])%list /\
  assoc_get "Authorization" delete_headers = Some ("Bearer " +:+ APIKey) /\
  assoc_get "X-API-Key" delete_headers = Some APIKey /\
  heap (delete_collection serve w).2 = heap w /\
  (exists rest, stdout (delete_collection serve w).2
                = (stdout w ++ response_repr r :: rest)%list) /\
  (status_code r = 200%Z ->
   stdout (delete_collection serve w).2
   = (stdout w ++ [response_repr r])%list).
Proof.
  intros r. rewrite delete_collection_run. cbn [fst snd heap sent stdout].
  fold r. split; [done|]. split; [done|]. split; [done|]. split; [done|].
  destruct (Z.eqb_spec (status_code r) 200) as [Heq|Hne].
  - split; [by exists []|done].
  - split; [|done]. eexists. by rewrite <- app_assoc.
Qed.


End GenerateAndSend.

(** ** Flattening responses of any shape *)

Section FlattenFacts.
Context {srv : Type} (serve : request -> srv -> response * srv).

(** The loop body appends to what was accumulated and never looks at
    it. *)
Lemma visit_revision_acc (all_doc : list json) (revision : json) :
  visit_revision all_doc revision =
  match visit_revision [] revision with
  | Ok items => Ok (all_doc ++ items)%list
  | Raise e => Raise e
  end.
Proof.
  unfold visit_revision, mbind, outcome_bind, mret, outcome_ret.
  destruct (Json.get revision "document") as [d|]; [|done].
  destruct (Json.keys d) as [ks|]; [|done].
  destruct (existsb (String.eqb "document") ks); [|done].
  destruct (Json.get d "document") as [inner|]; [|done].
  destruct (Json.iter inner) as [items|]; [|done].
  by rewrite !fold_left_append.
Qed.

(** The whole loop: the revisions are processed one by one from the
    left, and the first failure is the failure of the loop. *)
Lemma for_each_visit (revisions all_doc : list json) :
  for_each visit_revision revisions all_doc =
  match Heap.traverse (visit_revision []) revisions with
  | Ok groups => Ok (all_doc ++ concat groups)%list
  | Raise e => Raise e
  end.
Proof.
  revert all_doc.
  induction revisions as [|revision revisions IH]; intros all_doc.
  - cbn. by rewrite app_nil_r.
  - cbn [for_each Heap.traverse]. rewrite visit_revision_acc.
    destruct (visit_revision [] revision) as [items|]; [|done].
    rewrite IH.
    destruct (Heap.traverse (visit_revision []) revisions) as [groups|];
      [|done].
    cbn [concat]. by rewrite app_assoc.
Qed.

Lemma traverse_app_raise {A B : Type} (f : A -> outcome B)
    (good : list A) (bad : A) (rest : list A) (ys : list B) (e : exn) :
  Heap.traverse f good = Ok ys -> f bad = Raise e ->
  Heap.traverse f (good ++ bad :: rest) = Raise e.
Proof.
  revert ys. induction good as [|x good IH]; intros ys; cbn.
  - intros _ ->. done.
  - destruct (f x) as [y|]; [|done].
    destruct (Heap.traverse f good) as [ys'|] eqn:Hgood; [|done].
    intros _ Hbad. by rewrite (IH ys' eq_refl Hbad).
Qed.

Lemma traverse_shaped (revisions : list json) :
  forallb Spec.revision_shaped revisions = true ->
  Heap.traverse (visit_revision []) revisions
  = Ok (map Spec.leaves revisions).
Proof.
  induction revisions as [|revision revisions IH]; [done|].
  cbn [forallb Heap.traverse map]. intros [Hrev Hrest]%andb_prop.
  rewrite (visit_revision_shaped [] _ Hrev), (IH Hrest). done.
Qed.

(** What [get_all_transaction] returns for a mapping whose [revisions] is
    a list. *)
Lemma get_all_transaction_list (w : world srv) (kvs : list (string * json))
    (revisions : list json) :
  json_body (serve Spec.search_request (remote w)).1 = Some (JObj kvs) ->
  assoc_get "revisions" kvs = Some (JArr revisions) ->
  (get_all_transaction serve w).1 = for_each visit_revision revisions [].
Proof.
  intros Hbody Hrevs.
  rewrite get_all_transaction_run, get_data_request_run. cbn [fst snd].
  rewrite Hbody. unfold mbind, outcome_bind. cbn [Json.get].
  rewrite Hrevs. done.
Qed.

(** A revision without a [document], or whose [document] is null, makes
    the whole call fail with the attribute error of [None.keys()], even
    when every revision before it was well formed; the revisions after it
    are not looked at. *)
Theorem get_all_transaction_missing_document (w : world srv)
    (kvs : list (string * json)) (good rest : list json)
    (r : list (string * json)) :
  json_body (serve Spec.search_request (remote w)).1 = Some (JObj kvs) ->
  assoc_get "revisions" kvs = Some (JArr (good ++ JObj r :: rest)) ->
  forallb Spec.revision_shaped good = true ->
  default JNull (assoc_get "document" r) = JNull ->
  (get_all_transaction serve w).1 = Raise (AttributeError "NoneType" "keys").
Proof.
  intros Hbody Hrevs Hgood Hdoc.
  rewrite (get_all_transaction_list w kvs _ Hbody Hrevs), for_each_visit.
  rewrite (traverse_app_raise _ good (JObj r) rest _
             (AttributeError "NoneType" "keys") (traverse_shaped _ Hgood));
    [done|].
  unfold visit_revision, mbind, outcome_bind. cbn [Json.get].
  by rewrite Hdoc.
Qed.

(** A revision whose [document] has a nested [document] that is null
    counts as a batch and fails when the loop iterates over [None]. *)
Theorem get_all_transaction_null_batch (w : world srv)
    (kvs : list (string * json)) (good rest : list json)
    (r d : list (string * json)) :
  json_body (serve Spec.search_request (remote w)).1 = Some (JObj kvs) ->
  assoc_get "revisions" kvs = Some (JArr (good ++ JObj r :: rest)) ->
  forallb Spec.revision_shaped good = true ->
  assoc_get "document" r = Some (JObj d) ->
  assoc_get "document" d = Some JNull ->
  (get_all_transaction serve w).1 = Raise (TypeError_not_iterable "NoneType").
Proof.
  intros Hbody Hrevs Hgood Hdoc Hnested.
  rewrite (get_all_transaction_list w kvs _ Hbody Hrevs), for_each_visit.
  rewrite (traverse_app_raise _ good (JObj r) rest _
             (TypeError_not_iterable "NoneType") (traverse_shaped _ Hgood));
    [done|].
  unfold visit_revision, mbind, outcome_bind. cbn [Json.get].
  rewrite Hdoc. cbn [default from_option id Json.keys Json.get].
  rewrite existsb_keys, Hnested. done.
Qed.

(** A single transaction that itself has a member called [document]
    is taken for a batch: when that member is a string, the transaction
    is replaced in the result by the characters of the string. *)
Theorem get_all_transaction_document_member (w : world srv)
    (kvs : list (string * json)) (before after : list json)
    (r d : list (string * json)) (s : string) :
  json_body (serve Spec.search_request (remote w)).1 = Some (JObj kvs) ->
  assoc_get "revisions" kvs = Some (JArr (before ++ JObj r :: after)) ->
  forallb Spec.revision_shaped before = true ->
  forallb Spec.revision_shaped after = true ->
  assoc_get "document" r = Some (JObj d) ->
  assoc_get "document" d = Some (JStr s) ->
  (get_all_transaction serve w).1
  = Ok (Spec.flatten before ++ Json.chars s ++ Spec.flatten after)%list.
Proof.
  intros Hbody Hrevs Hbefore Hafter Hdoc Hnested.
  rewrite (get_all_transaction_list w kvs _ Hbody Hrevs).
  assert (visit_revision [] (JObj r) = Ok (Json.chars s)) as Hvisit.
  { unfold visit_revision, mbind, outcome_bind, mret, outcome_ret.
    cbn [Json.get]. rewrite Hdoc.
    cbn [default from_option id Json.keys Json.get].
    rewrite existsb_keys, Hnested. cbn [default from_option id Json.iter].
    by rewrite fold_left_append. }
  rewrite for_each_visit.
  assert (forall xs ys zs,
            Heap.traverse (visit_revision []) xs = Ok ys ->
            Heap.traverse (visit_revision []) (JObj r :: after) = Ok zs ->
            Heap.traverse (visit_revision []) (xs ++ JObj r :: after)
            = Ok (ys ++ zs)%list) as Happ.
  { induction xs as [|x xs IH]; intros ys zs.
    - cbn [app Heap.traverse]. intros [= <-] Hzs. exact Hzs.
    - cbn [Heap.traverse app].
      destruct (visit_revision [] x) as [y|]; [|done].
      destruct (Heap.traverse (visit_revision []) xs) as [ys'|]; [|done].
      intros [= <-] Hzs. by rewrite (IH ys' zs eq_refl Hzs). }
  rewrite (Happ before (map Spec.leaves before)
             (Json.chars s :: map Spec.leaves after)
             (traverse_shaped _ Hbefore)).
  - rewrite concat_app. done.
  - cbn [Heap.traverse]. by rewrite Hvisit, (traverse_shaped _ Hafter).
Qed.

End FlattenFacts.

(** * The tests *)

Section TestFacts.
Context {srv : Type} (serve : request -> srv -> response * srv).


(** [test_get_data_request] on a response that is a mapping: it passes
    exactly when the mapping has a [revisions] member that is not null,
    whatever the status code and whatever that member is. *)
Theorem test_get_data_request_outcome (w : world srv)
    (kvs : list (string * json)) :
  json_body (serve Spec.search_request (remote w)).1 = Some (JObj kvs) ->
  (test_get_data_request serve w).1 =
  match assoc_get "revisions" kvs with
  | None | Some JNull => Raise (AssertionError "Failed to fetch data from API.")
  | Some _ => Ok tt
  end.
Proof.
  intros Hbody. unfold test_get_data_request, mbind, M_bind.
  rewrite get_data_request_run, Hbody. unfold lift. cbn [Json.get].
  by destruct (assoc_get "revisions" kvs) as [[]|].
Qed.

End TestFacts.

(** * The client against the store model *)

Module VaultFacts.

Lemma put_run (b : bool) (w : world Vault.state) (data : val) (j : json) :
  Heap.dumps (heap w) data = Ok j -> data <> VNone ->
  put_data_request (Vault.serve b) data w =
  (Ok true,
   World (if Heap.is_list (heap w) data
          then <[fresh (dom (heap w)) := ODict [("document", data)]]> (heap w)
          else heap w)
         (remote w ++ [Spec.put_body (Heap.is_list (heap w) data) j])%list
         (sent w ++ [Spec.put_request (heap w) data j])%list (stdout w)).
Proof.
  intros Hj Hdata. rewrite (put_data_request_run _ w data j Hj).
  by destruct data.
Qed.

Lemma get_all_run (b : bool) (w : world Vault.state) :
  forallb Spec.revision_shaped (map Vault.revision (remote w)) = true ->
  get_all_transaction (Vault.serve b) w =
  (Ok (Spec.flatten (map Vault.revision (remote w))),
   World (<[fresh (dom (heap w)) := ODict search_page]> (heap w))
         (remote w) (sent w ++ [Spec.search_request])%list (stdout w)).
Proof.
  intros Hshape. rewrite get_all_transaction_run, get_data_request_run.
  cbn [fst snd Vault.serve Spec.search_request req_method json_body].
  unfold Vault.search_result, mbind, outcome_bind.
  cbn [Json.get assoc_get String.eqb Ascii.eqb Bool.eqb default from_option
       id Json.iter].
  by rewrite (for_each_shaped _ [] Hshape).
Qed.

Lemma flatten_app (xs ys : list json) :
  Spec.flatten (xs ++ ys) = (Spec.flatten xs ++ Spec.flatten ys)%list.
Proof. unfold Spec.flatten. by rewrite map_app, concat_app. Qed.

(** Batch round trip.  After a list that serialises to [js] is written,
    the flattened aggregate is what it was before followed by the
    elements of [js], in order: the envelope that [put_data_request]
    wraps around a list is what [get_all_transaction] unwraps. *)
Theorem batch_round_trip (b : bool) (w : world Vault.state) (data : val)
    (js : list json) :
  Heap.is_list (heap w) data = true ->
  Heap.dumps (heap w) data = Ok (JArr js) ->
  forallb Spec.revision_shaped (map Vault.revision (remote w)) = true ->
  ((_ ← put_data_request (Vault.serve b) data;
    get_all_transaction (Vault.serve b)) w).1
  = Ok (Spec.flatten (map Vault.revision (remote w)) ++ js)%list.
Proof.
  intros Hlist Hj Hshape. unfold mbind at 1, M_bind at 1.
  rewrite (put_run b w data (JArr js) Hj) by (by destruct data).
  rewrite Hlist. rewrite get_all_run; cbn [remote].
  - cbn [fst]. rewrite map_app, flatten_app. cbn. by rewrite app_nil_r.
  - rewrite map_app, forallb_app, Hshape. reflexivity.
Qed.

(** Single round trip.  After a mapping without a member called
    [document] is written, the flattened aggregate is what it was before
    followed by that mapping. *)
Theorem single_round_trip (b : bool) (w : world Vault.state) (data : val)
    (members : list (string * json)) :
  Heap.is_list (heap w) data = false ->
  Heap.dumps (heap w) data = Ok (JObj members) ->
  assoc_get "document" members = None ->
  forallb Spec.revision_shaped (map Vault.revision (remote w)) = true ->
  ((_ ← put_data_request (Vault.serve b) data;
    get_all_transaction (Vault.serve b)) w).1
  = Ok (Spec.flatten (map Vault.revision (remote w)) ++ [JObj members])%list.
Proof.
  intros Hlist Hj Hdoc Hshape. unfold mbind at 1, M_bind at 1.
  assert (data <> VNone) as Hdata.
  { intros ->. rewrite dumps_None in Hj. discriminate. }
  rewrite (put_run b w data (JObj members) Hj Hdata).
  rewrite Hlist. rewrite get_all_run; cbn [remote Spec.put_body].
  - cbn [fst]. rewrite map_app, flatten_app. unfold Spec.flatten.
    cbn [map concat Vault.revision Spec.leaves assoc_get String.eqb
         Ascii.eqb Bool.eqb].
    by rewrite Hdoc, app_nil_r.
  - rewrite map_app, forallb_app, Hshape.
    cbn [map forallb Vault.revision Spec.revision_shaped assoc_get
         String.eqb Ascii.eqb Bool.eqb andb].
    by rewrite Hdoc.
Qed.

(** After a delete the aggregate is empty, whatever the vault held. *)
Theorem delete_then_get_all (b : bool) (w : world Vault.state) :
  ((_ ← delete_collection (Vault.serve b);
    get_all_transaction (Vault.serve b)) w).1 = Ok [].
Proof.
  unfold mbind at 1, M_bind at 1. rewrite delete_collection_run.
  cbv zeta. cbn [fst snd Vault.serve Spec.delete_request req_method].
  by rewrite get_all_run.
Qed.

End VaultFacts.

(** * The tests against the store model *)

Module VaultTests.
Import VaultFacts.

(** Looking for a transaction among leaves that are all mappings finds
    it when one of them has its account number. *)
Lemma any_included_found {srv : Type} (w : world srv) (l : loc)
    (kvs : list (string * val)) (s : string) (before after : list json)
    (target : json) :
  heap w !! l = Some (ODict kvs) ->
  assoc_get "account_number" kvs = Some (VStr s) ->
  forallb is_mapping before = true ->
  Json.get target "account_number" = Ok (JStr s) ->
  any_included (VRef l) (before ++ target :: after) w = (Ok true, w).
Proof.
  intros Hl Hkvs Hbefore Htarget.
  induction before as [|i before IH].
  - cbn [app any_included].
    unfold mbind, M_bind, lift, getitem, py_eq, mret, M_ret.
    rewrite Htarget, Hl, Hkvs.
    cbn [Heap.py_eq]. by rewrite String.eqb_refl.
  - cbn [forallb] in Hbefore. apply andb_prop in Hbefore as [Hi Hbefore].
    destruct i; try discriminate Hi.
    cbn [app any_included].
    unfold mbind at 1 2 3, M_bind, lift, getitem, py_eq, mret, M_ret.
    cbn [Json.get]. rewrite Hl, Hkvs.
    destruct (Heap.py_eq (heap w) _ (VStr s)); [done|].
    exact (IH Hbefore).
Qed.

Lemma transaction_shaped (d : draws) :
  Spec.revision_shaped (Vault.revision (transaction_json d)) = true.
Proof. reflexivity. Qed.

Lemma transaction_leaves (d : draws) :
  Spec.leaves (Vault.revision (transaction_json d)) = [transaction_json d].
Proof. reflexivity. Qed.

Lemma fresh_insert_ne (h : gmap loc obj) (l : loc) (o : obj) :
  fresh (dom (<[l := o]> h)) <> l.
Proof.
  intros Heq. pose proof (fresh_lookup_None (<[l := o]> h)) as Hfresh.
  rewrite Heq, lookup_insert_eq in Hfresh. discriminate.
Qed.

(** [test_transaction_included_empty_vault] passes on the store model
    from every world, whatever was drawn and whatever the vault held. *)
Theorem test_transaction_included_empty_vault_passes (b : bool) (d : draws)
    (w : world Vault.state) :
  (with_transaction d (test_transaction_included_empty_vault (Vault.serve b))
     w).1 = Ok tt.
Proof.
  unfold with_transaction, test_transaction_included_empty_vault.
  unfold mbind at 1, M_bind at 1. rewrite generate_transaction_run.
  set (l := fresh (dom (heap w))).
  set (h1 := <[l := ODict (transaction_members d)]> (heap w)).
  unfold mbind at 1, M_bind at 1. rewrite delete_collection_run.
  cbv zeta. cbn [fst snd heap remote sent stdout Vault.serve
                 Spec.delete_request req_method].
  unfold mbind at 1, M_bind at 1.
  rewrite (put_run b _ (VRef l) (transaction_json d));
    [|cbn [heap]; apply dumps_transaction, fresh_lookup_None|done].
  cbn [heap remote sent stdout].
  rewrite (is_list_transaction d (heap w) l : Heap.is_list h1 (VRef l) = false).
  cbn [Spec.put_body app].
  unfold mbind at 1, M_bind at 1.
  rewrite get_all_run by (cbn [remote map forallb];
                          by rewrite transaction_shaped).
  cbn [heap remote sent stdout map]. unfold Spec.flatten.
  cbn [map concat]. rewrite transaction_leaves. cbn [app].
  unfold mbind at 1, M_bind at 1.
  match goal with
  | |- context [any_included _ _ ?w'] =>
      pose proof (any_included_found w' l (transaction_members d)
                    (PyStr.str_int (d_random_number d)) [] []
                    (transaction_json d)) as Hfound
  end.
  cbn [app heap] in Hfound. rewrite Hfound; try done.
  rewrite lookup_insert_ne by apply fresh_insert_ne.
  apply lookup_insert_eq.
Qed.

Lemma fresh_ne (h : gmap loc obj) (l : loc) (o : obj) :
  h !! l = Some o -> fresh (dom h) <> l.
Proof.
  intros Hl Heq. pose proof (fresh_lookup_None h) as Hfresh.
  rewrite Heq, Hl in Hfresh. discriminate.
Qed.

(** Allocating an object does not change how an existing value
    serialises. *)
Lemma dumps_insert (h : gmap loc obj) (l : loc) (o : obj) (v : val)
    (j : json) :
  h !! l = None -> Heap.dumps h v = Ok j ->
  Heap.dumps (<[l := o]> h) v = Ok j.
Proof.
  intros Hl Hj. unfold Heap.dumps in *.
  rewrite map_size_insert_None by exact Hl.
  by apply dumps_fuel_S, dumps_fuel_insert.
Qed.

(** [test_transaction_included_not_empty_vault] passes on the store
    model whenever the vault holds well-formed revisions whose leaves are
    all mappings. *)
Theorem test_transaction_included_not_empty_vault_passes (b : bool)
    (d d' : draws) (w : world Vault.state) :
  forallb Spec.revision_shaped (map Vault.revision (remote w)) = true ->
  forallb is_mapping (Spec.flatten (map Vault.revision (remote w))) = true ->
  (with_transaction d
     (test_transaction_included_not_empty_vault (Vault.serve b) d') w).1
  = Ok tt.
Proof.
  intros Hshape Hleaves.
  unfold with_transaction, test_transaction_included_not_empty_vault.
  unfold mbind at 1, M_bind at 1. rewrite generate_transaction_run.
  set (l := fresh (dom (heap w))).
  set (h1 := <[l := ODict (transaction_members d)]> (heap w)).
  unfold mbind at 1, M_bind at 1. rewrite generate_transaction_run.
  cbn [heap remote sent stdout].
  set (l' := fresh (dom h1)).
  set (h2 := <[l' := ODict (transaction_members d')]> h1).
  assert (Heap.dumps h2 (VRef l') = Ok (transaction_json d')) as Hdumps'
    by apply dumps_transaction, fresh_lookup_None.
  assert (Heap.dumps h2 (VRef l) = Ok (transaction_json d)) as Hdumps.
  { apply dumps_insert; [apply fresh_lookup_None|].
    apply dumps_transaction, fresh_lookup_None. }
  assert (h2 !! l = Some (ODict (transaction_members d))) as Hl.
  { unfold h2. rewrite lookup_insert_ne by apply fresh_insert_ne.
    apply lookup_insert_eq. }
  assert (Heap.is_list h2 (VRef l') = false) as Hlist'
    by apply is_list_transaction.
  assert (Heap.is_list h2 (VRef l) = false) as Hlist
    by (unfold Heap.is_list; by rewrite Hl).
  unfold mbind at 1, M_bind at 1.
  rewrite (put_run b _ (VRef l') (transaction_json d')); [|exact Hdumps'|done].
  cbn [heap remote sent stdout]. rewrite Hlist'.
  unfold mbind at 1, M_bind at 1.
  rewrite (put_run b _ (VRef l) (transaction_json d)); [|exact Hdumps|done].
  cbn [heap remote sent stdout]. rewrite Hlist. cbn [Spec.put_body].
  unfold mbind at 1, M_bind at 1.
  rewrite get_all_run.
  2: { cbn [remote]. rewrite !map_app, !forallb_app, Hshape.
       cbn [map forallb]. by rewrite !transaction_shaped. }
  cbn [heap remote sent stdout].
  rewrite !map_app, !flatten_app. unfold Spec.flatten at 2 3.
  cbn [map concat]. rewrite !transaction_leaves. cbn [app].
  unfold mbind at 1, M_bind at 1.
  match goal with
  | |- context [any_included _ _ ?w'] =>
      pose proof (any_included_found w' l (transaction_members d)
                    (PyStr.str_int (d_random_number d))
                    (Spec.flatten (map Vault.revision (remote w))
                     ++ [transaction_json d'])
                    [] (transaction_json d)) as Hfound
  end.
  cbn [heap] in Hfound.
  rewrite Hfound; try done.
  - rewrite lookup_insert_ne by (by apply (fresh_ne _ _ _ Hl)). exact Hl.
  - rewrite forallb_app, Hleaves. reflexivity.
Qed.

(** [test_transaction_overwriting] from an empty vault.  On the store
    that rejects the empty second write the test passes exactly when the
    amount that was drawn is itself 999, and fails its assertion
    otherwise; on the store that keeps a revision holding null it always
    raises from [get_all_transaction]. *)
Theorem test_transaction_overwriting_outcome (b : bool) (d : draws)
    (w : world Vault.state) :
  remote w = [] ->
  (run_test_transaction_overwriting (Vault.serve b) d w).1 =
  if b then Raise (AttributeError "NoneType" "keys")
  else if Qeq_bool (B64.py_round (Random.uniform 1 10000 d) 2) (inject_Z 999)
       then Ok tt
       else Raise (AssertionError "Transaction not found in current data.").
Proof.
  intros Hempty.
  unfold run_test_transaction_overwriting, test_transaction_overwriting.
  unfold mbind at 1, M_bind at 1. rewrite generate_transaction_run.
  set (l := fresh (dom (heap w))).
  set (h1 := <[l := ODict (transaction_members d)]> (heap w)).
  assert (h1 !! l = Some (ODict (transaction_members d))) as Hl
    by apply lookup_insert_eq.
  unfold mbind at 1, M_bind at 1.
  rewrite (put_run b _ (VRef l) (transaction_json d));
    [|cbn [heap]; apply dumps_transaction, fresh_lookup_None|done].
  cbn [heap remote sent stdout].
  rewrite (is_list_transaction d (heap w) l : Heap.is_list h1 (VRef l) = false).
  rewrite Hempty. cbn [Spec.put_body app].
  unfold mbind at 1, M_bind at 1. unfold dict_update at 1.
  cbn [heap remote sent stdout]. rewrite Hl.
  set (h2 := <[l := _]> (<[fresh (dom h1) := _]> h1)).
  unfold mbind at 1, M_bind at 1.
  rewrite (put_data_request_run _ _ VNone JNull (dumps_None _)).
  cbn [heap remote sent stdout Heap.is_list Spec.put_request Vault.serve
       req_method req_json fst snd].
  destruct b; cbn [fst snd status_code].
  - unfold mbind at 1, M_bind at 1.
    rewrite get_all_transaction_run, get_data_request_run.
    reflexivity.
  - unfold mbind at 1, M_bind at 1.
    rewrite get_all_run by (cbn [remote map forallb];
                            by rewrite transaction_shaped).
    cbn [heap remote sent stdout map]. unfold Spec.flatten.
    cbn [map concat]. rewrite transaction_leaves. cbn [app].
    unfold mbind at 1, M_bind at 1. cbn [any_overwritten].
    unfold mbind, M_bind, lift, getitem, py_eq, mret, M_ret, raise.
    cbn [heap].
    assert (h2 !! l = Some (ODict
              (fold_left (fun acc kv => assoc_set kv.1 kv.2 acc)
                         [("amount", VInt 999)] (transaction_members d))))
      as Hl2 by apply lookup_insert_eq.
    rewrite lookup_insert_ne by (by apply (fresh_ne _ _ _ Hl2)).
    rewrite Hl2.
    change (Json.get (transaction_json d) "account_number")
      with (Ok (A := json) (JStr (PyStr.str_int (d_random_number d)))).
    change (assoc_get "account_number"
              (fold_left (fun acc kv => assoc_set kv.1 kv.2 acc)
                         [("amount", VInt 999)] (transaction_members d)))
      with (Some (VStr (PyStr.str_int (d_random_number d)))).
    cbn [Heap.py_eq]. rewrite String.eqb_refl.
    change (Json.get (transaction_json d) "amount")
      with (Ok (A := json)
              (JFloat (B64.py_round (Random.uniform 1 10000 d) 2))).
    cbn [Json.eq_int Json.number].
    by destruct (Qeq_bool _ _).
Qed.

End VaultTests.

(** * Responses that are not what the client expects *)

Section DecodeFacts.
Context {srv : Type} (serve : request -> srv -> response * srv).

(** When the body of the search response is not JSON,
    [get_all_transaction] raises the decoding error of [response.json()];
    the request has been sent by then. *)
Theorem get_all_transaction_not_json (w : world srv) :
  json_body (serve Spec.search_request (remote w)).1 = None ->
  (get_all_transaction serve w).1 = Raise JSONDecodeError /\
  sent (get_all_transaction serve w).2
  = (sent w ++ [Spec.search_request])%list.
Proof.
  intros Hbody. rewrite get_all_transaction_run, get_data_request_run.
  cbn [fst snd sent]. by rewrite Hbody.
Qed.

(** When the search response is JSON but not a mapping (a list, a
    string, a number, null), [get_all_transaction] fails on
    [current_data.get]: the value has no such method. *)
Theorem get_all_transaction_not_mapping (w : world srv) (j : json) :
  json_body (serve Spec.search_request (remote w)).1 = Some j ->
  is_mapping j = false ->
  (get_all_transaction serve w).1
  = Raise (AttributeError (Json.type_name j) "get").
Proof.
  intros Hbody Hj. rewrite get_all_transaction_run, get_data_request_run.
  cbn [fst snd]. rewrite Hbody. by destruct j.
Qed.

End DecodeFacts.

(** * The further properties at sample inputs *)

Lemma put_data_request_circular_witness :
  (put_data_request (Vault.serve false) (VRef 1%positive)
     (World Sample2.circular [] [] [])).1
  = Raise InvalidJSONError.
Proof.
  apply (put_data_request_circular (Vault.serve false)
           (World Sample2.circular [] [] []) 1%positive [VInt 2]).
  reflexivity.
Defined.

Lemma get_all_transaction_missing_document_witness :
  (get_all_transaction
     (Sample2.answering
        (JObj [("revisions",
                JArr (Sample.mixed_revisions
                      ++ JObj [("revision", JStr "3")] :: []))]))
     Sample.idle).1
  = Raise (AttributeError "NoneType" "keys").
Proof.
  apply (get_all_transaction_missing_document
           (Sample2.answering
              (JObj [("revisions",
                      JArr (Sample.mixed_revisions
                            ++ JObj [("revision", JStr "3")] :: []))]))
           Sample.idle
           [("revisions",
             JArr (Sample.mixed_revisions
                   ++ JObj [("revision", JStr "3")] :: []))]
           Sample.mixed_revisions [] [("revision", JStr "3")]);
    reflexivity.
Defined.

Lemma get_all_transaction_null_batch_witness :
  (get_all_transaction
     (Sample2.answering
        (JObj [("revisions",
                JArr ([] ++ Vault.revision (JObj [("document", JNull)])
                         :: Sample.mixed_revisions))]))
     Sample.idle).1
  = Raise (TypeError_not_iterable "NoneType").
Proof.
  apply (get_all_transaction_null_batch
           (Sample2.answering
              (JObj [("revisions",
                      JArr ([] ++ Vault.revision (JObj [("document", JNull)])
                               :: Sample.mixed_revisions))]))
           Sample.idle
           [("revisions",
             JArr ([] ++ Vault.revision (JObj [("document", JNull)])
                      :: Sample.mixed_revisions))]
           [] Sample.mixed_revisions
           [("document", JObj [("document", JNull)])]
           [("document", JNull)]);
    reflexivity.
Defined.

Lemma get_all_transaction_document_member_witness :
  (get_all_transaction
     (Sample2.answering
        (JObj [("revisions",
                JArr (Sample.mixed_revisions
                      ++ Vault.revision
                           (JObj [("account_number", JStr "4");
                                  ("document", JStr "€5")])
                      :: []))]))
     Sample.idle).1
  = Ok [JObj [("account_number", JStr "1")];
        JObj [("account_number", JStr "2")];
        JObj [("account_number", JStr "3")];
        JStr "€"; JStr "5"].
Proof.
  apply (get_all_transaction_document_member
           (Sample2.answering
              (JObj [("revisions",
                      JArr (Sample.mixed_revisions
                            ++ Vault.revision
                                 (JObj [("account_number", JStr "4");
                                        ("document", JStr "€5")])
                            :: []))]))
           Sample.idle
           [("revisions",
             JArr (Sample.mixed_revisions
                   ++ Vault.revision
                        (JObj [("account_number", JStr "4");
                               ("document", JStr "€5")])
                   :: []))]
           Sample.mixed_revisions []
           [("document", JObj [("account_number", JStr "4");
                               ("document", JStr "€5")])]
           [("account_number", JStr "4"); ("document", JStr "€5")]
           "€5");
    reflexivity.
Defined.

Lemma test_get_data_request_outcome_witness :
  (test_get_data_request (Sample.constant Sample.error_payload) Sample.idle).1
  = Raise (AssertionError "Failed to fetch data from API.").
Proof.
  apply (test_get_data_request_outcome (Sample.constant Sample.error_payload)
           Sample.idle [("error", JStr "unauthorized")]).
  reflexivity.
Defined.

Lemma batch_round_trip_witness :
  ((_ ← put_data_request (Vault.serve false) (VRef 3%positive);
    get_all_transaction (Vault.serve false)) Sample2.stocked).1
  = Ok [JObj [("account_number", JStr "1")];
        JObj [("account_number", JStr "2")];
        JObj [("amount", JInt 5)]; JObj [("amount", JInt 5)]].
Proof.
  apply (VaultFacts.batch_round_trip false Sample2.stocked (VRef 3%positive)
           [JObj [("amount", JInt 5)]; JObj [("amount", JInt 5)]]);
    vm_compute; reflexivity.
Defined.

Lemma single_round_trip_witness :
  ((_ ← put_data_request (Vault.serve false) (VRef 2%positive);
    get_all_transaction (Vault.serve false)) Sample2.stocked).1
  = Ok [JObj [("account_number", JStr "1")];
        JObj [("account_number", JStr "2")];
        JObj [("amount", JInt 5)]].
Proof.
  apply (VaultFacts.single_round_trip false Sample2.stocked (VRef 2%positive)
           [("amount", JInt 5)]);
    vm_compute; reflexivity.
Defined.

Lemma test_transaction_included_not_empty_vault_passes_witness :
  (with_transaction Sample.mid_draws
     (test_transaction_included_not_empty_vault (Vault.serve false)
        Sample.top_draws) Sample2.stocked).1
  = Ok tt.
Proof.
  apply (VaultTests.test_transaction_included_not_empty_vault_passes false
           Sample.mid_draws Sample.top_draws Sample2.stocked);
    reflexivity.
Defined.

Lemma test_transaction_overwriting_outcome_witness :
  (run_test_transaction_overwriting (Vault.serve false) Sample.mid_draws
     Vault.empty).1
  = Raise (AssertionError "Transaction not found in current data.").
Proof.
  rewrite (VaultTests.test_transaction_overwriting_outcome false
             Sample.mid_draws Vault.empty eq_refl).
  vm_compute. reflexivity.
Defined.

Lemma get_all_transaction_not_json_witness :
  (get_all_transaction
     (Sample.constant (Response 502 "<html>Bad Gateway</html>" None))
     Sample.idle).1
  = Raise JSONDecodeError.
Proof.
  apply (get_all_transaction_not_json
           (Sample.constant (Response 502 "<html>Bad Gateway</html>" None))
           Sample.idle).
  reflexivity.
Defined.

Lemma get_all_transaction_not_mapping_witness :
  (get_all_transaction (Sample2.answering (JArr [])) Sample.idle).1
  = Raise (AttributeError "list" "get").
Proof.
  apply (get_all_transaction_not_mapping (Sample2.answering (JArr []))
           Sample.idle (JArr []));
    reflexivity.
Defined.
